(** * Reactive forms: the [formControlName] directive

    A shallow embedding of [src/directives/reactive_directives/form_control_name.ts],
    of the helpers of [src/shims/util.ts] ([looseIdentical], [isPromise],
    [isObservable], [getClosureSafeProperty], [stringify]) and of the
    renderer's style flags.

    JavaScript values are a tagged union, numbers are IEEE-754 binary64
    (Rocq's primitive floats), objects are compared by reference.  The
    directive's methods run in a state-and-exception monad over a [World]
    holding the directive instance ([this]), the heap of container directives
    it can reach through [_parent], and the trace of calls made on external
    collaborators. *)

From Stdlib Require Import Floats.PrimFloat Floats.SpecFloat Floats.FloatAxioms.
From stdpp Require Import base option list strings gmap.

Set Default Proof Using "Type".

(** ** JavaScript values *)

Module Js.

(** Object identity: two object values are [===] iff they are the same
    reference. *)
Definition Ref := nat.

Inductive Value : Type :=
| Undefined
| Null
| Bool (b : bool)
| Number (x : float)
| String (s : string)
| Object (r : Ref)
| Function (r : Ref).

Definition NaN : Value := Number PrimFloat.nan.

(** The [typeof] operator. *)
Definition typeof (v : Value) : string :=
  match v with
  | Undefined => "undefined"
  | Null => "object"
  | Bool _ => "boolean"
  | Number _ => "number"
  | String _ => "string"
  | Object _ => "object"
  | Function _ => "function"
  end.

(** Strict equality [a === b]: same type and same value; numbers compare
    as IEEE-754 does (NaN differs from everything, [+0 === -0]); objects and
    functions compare by reference. *)
Definition strict_equals (a b : Value) : bool :=
  match a, b with
  | Undefined, Undefined => true
  | Null, Null => true
  | Bool x, Bool y => Bool.eqb x y
  | Number x, Number y => PrimFloat.eqb x y
  | String x, String y => String.eqb x y
  | Object x, Object y => Nat.eqb x y
  | Function x, Function y => Nat.eqb x y
  | _, _ => false
  end.

(** The global [isNaN] on a number. *)
Definition isNaN (x : float) : bool := PrimFloat.is_nan x.

End Js.

(** ** [src/shims/util.ts] *)

(** [a === b || (typeof a === 'number' && typeof b === 'number' && isNaN(a) && isNaN(b))].
    The [&&] chain is short-circuit, so [isNaN] is only ever applied to
    numbers; the two [typeof] tests are kept as written and the match selects
    the numeric payloads they guarantee. *)
Definition looseIdentical (a b : Js.Value) : bool :=
  Js.strict_equals a b
  || (String.eqb (Js.typeof a) "number" && String.eqb (Js.typeof b) "number"
      && match a, b with
         | Js.Number x, Js.Number y => Js.isNaN x && Js.isNaN y
         | _, _ => false
         end).

(** "[v] is a number and is NaN". *)
Definition is_NaN_number (v : Js.Value) : Prop :=
  exists x, v = Js.Number x /\ Js.isNaN x = true.

(** ** Collaborator interfaces

    The classes below live in files of the repository that the directive
    only imports ([model.ts], [validators.ts], [control_value_accessor.ts],
    [control_container.ts], [form_group_directive.ts], ...).  They are modelled
    at the boundary the directive sees: the properties it reads and the
    methods it calls. *)

(** What a [throw] carries. *)
Inductive Error : Type :=
| NgModelGroupException                 (* ReactiveErrors.ngModelGroupException() *)
| ControlParentException                (* ReactiveErrors.controlParentException() *)
| PathResolutionError                   (* no parent container to resolve a path from *)
| TypeError                             (* property access on null or undefined *)
| CollaboratorError (message : string). (* thrown from inside a collaborator *)

(** How a call ends: normally with a value, or abruptly with a [throw]. *)
Inductive Completion (A : Type) : Type :=
| Normal (a : A)
| Throw (e : Error).

Arguments Normal {A} a.
Arguments Throw {A} e.

(** [AbstractControl] / [FormControl]: the model node; the directive reads
    [disabled] only. *)
Record AbstractControl : Type := {
  value : Js.Value;
  disabled : bool;
}.

Definition FormControl : Type := AbstractControl.

(** [ValidationErrors]: an object used as a map from error name to payload. *)
Definition ValidationErrors : Type := gmap string Js.Value.

Definition ValidatorFn : Type := AbstractControl -> option ValidationErrors.

(** A promise or observable, seen at one instant. *)
Inductive Deferred (A : Type) : Type :=
| Pending
| Resolved (a : A).

Arguments Pending {A}.
Arguments Resolved {A} a.

Definition AsyncValidatorFn : Type :=
  AbstractControl -> Deferred (option ValidationErrors).

(** [Validator | ValidatorFn]: an object with a [validate] method, or a bare
    function. *)
Inductive RawValidator : Type :=
| ValidatorObject (validate : ValidatorFn)
| ValidatorFunction (fn : ValidatorFn).

Inductive RawAsyncValidator : Type :=
| AsyncValidatorObject (validate : AsyncValidatorFn)
| AsyncValidatorFunction (fn : AsyncValidatorFn).

(** How an accessor was provided (used by accessor selection only). *)
Inductive AccessorKind : Type := DefaultAccessor | BuiltInAccessor | CustomAccessor.

(** [ControlValueAccessor]; [setDisabledState] is an optional method of the
    interface: [None] when the accessor does not define it, otherwise what a
    call does (return, or throw). *)
Record ControlValueAccessor : Type := {
  accessorKind : AccessorKind;
  setDisabledState : option (bool -> Completion unit);
}.

(** One entry of the [SimpleChanges] object handed to [ngOnChanges]. *)
Record SimpleChange : Type := {
  previousValue : Js.Value;
  currentValue : Js.Value;
  firstChange : bool;
}.

(** The fields of a [FormControlName] instance.  [control] is declared
    [control!: FormControl] and stays unset until setup assigns it;
    [_parent] is an object reference or [null]. *)
Record FormControlName : Type := {
  _added : bool;
  viewModel : Js.Value;
  control : option FormControl;
  name : Js.Value;
  model : Js.Value;
  _parent : option Js.Ref;
  _rawValidators : list RawValidator;
  _rawAsyncValidators : list RawAsyncValidator;
  valueAccessor : option ControlValueAccessor;
}.

(** Calls that leave the directive, in the order they are made.  Each records
    its arguments; [dir] is the directive as the callee sees it at that
    instant ([this] is passed by reference, and [EventEmitter.emit] delivers
    synchronously). *)
Inductive Event : Type :=
| AddControl (dir : FormControlName)
| UpdateModel (dir : FormControlName) (value : Js.Value)
| RemoveControl (dir : FormControlName)
| SetDisabledState (isDisabled : bool)
| NgModelChange (dir : FormControlName) (value : Js.Value).

(** The top-level form directive: its three entry points.  What each call does
    may depend on everything that happened before ([list Event]) and on the
    directive passed to it.  A call is followed up to its return or its
    throw: what the form directive does inside, calls back into the directive
    included, is outside this model, and the trace holds the calls the
    directive's own statements make. *)
Record FormDirective : Type := {
  addControl : list Event -> FormControlName -> Completion FormControl;
  updateModel : list Event -> FormControlName -> Js.Value -> Completion unit;
  removeControl : list Event -> FormControlName -> Completion unit;
}.

(** The classes [_checkParentType] tests with [instanceof]. *)
Inductive Class : Type :=
| FormGroupName
| AbstractFormGroupDirective
| FormGroupDirective
| FormArrayName.

(** A [ControlContainer] object as the directive sees it: the classes on its
    prototype chain and what its two getters read.  Each container's reads
    are given on their own; how a container derives them from the containers
    above it is not modelled. *)
Record ControlContainer : Type := {
  prototypeChain : Class -> bool;
  cc_path : list Js.Value;
  cc_formDirective : option FormDirective;
}.

(** The heap of container directives; they are shared, mutable objects, so the
    directive holds a reference and reads them afresh on every access. *)
Definition Heap : Type := Js.Ref -> ControlContainer.

Definition heap_update (h : Heap) (r : Js.Ref) (c : ControlContainer) : Heap :=
  fun r' => if Nat.eqb r' r then c else h r'.

Record World : Type := {
  this : FormControlName;
  heap : Heap;
  trace : list Event;
}.

(** [x instanceof C]; [null instanceof C] is false. *)
Definition instanceof (h : Heap) (x : option Js.Ref) (C : Class) : bool :=
  match x with
  | Some r => prototypeChain (h r) C
  | None => false
  end.

(** ** The method monad: state over [World], with exceptions

    A [throw] keeps every write made before it: the world after a throwing
    call is the world at the point of the [throw]. *)

Definition M (A : Type) : Type := World -> World * Completion A.

Definition ret {A : Type} (a : A) : M A := fun w => (w, Normal a).

Definition throw {A : Type} (e : Error) : M A := fun w => (w, Throw e).

Definition bind {A B : Type} (m : M A) (k : A -> M B) : M B :=
  fun w =>
    match m w with
    | (w', Normal a) => k a w'
    | (w', Throw e) => (w', Throw e)
    end.

Declare Scope method_scope.
Delimit Scope method_scope with method.
Bind Scope method_scope with M.

Notation "x <- m ;; k" := (bind m (fun x => k))
  (at level 100, m at next level, k at level 200, right associativity) : method_scope.
Notation "m ';;' k" := (bind m (fun _ => k))
  (at level 100, k at level 200, right associativity) : method_scope.

(** Reading [this]. *)
Definition get_this : M FormControlName := fun w => (w, Normal (this w)).

(** Assigning to fields of [this]. *)
Definition modify_this (f : FormControlName -> FormControlName) : M unit :=
  fun w => ({| this := f (this w); heap := heap w; trace := trace w |}, Normal tt).

(** Recording a call on a collaborator. *)
Definition emit_event (e : Event) : M unit :=
  fun w => ({| this := this w; heap := heap w; trace := trace w ++ [e] |}, Normal tt).

(** Ending as a collaborator's call ended. *)
Definition complete {A : Type} (c : Completion A) : M A := fun w => (w, c).

Definition set__added (b : bool) (d : FormControlName) : FormControlName :=
  {| _added := b; viewModel := viewModel d; control := control d; name := name d;
     model := model d; _parent := _parent d; _rawValidators := _rawValidators d;
     _rawAsyncValidators := _rawAsyncValidators d; valueAccessor := valueAccessor d |}.

Definition set_viewModel (v : Js.Value) (d : FormControlName) : FormControlName :=
  {| _added := _added d; viewModel := v; control := control d; name := name d;
     model := model d; _parent := _parent d; _rawValidators := _rawValidators d;
     _rawAsyncValidators := _rawAsyncValidators d; valueAccessor := valueAccessor d |}.

Definition set_control (c : FormControl) (d : FormControlName) : FormControlName :=
  {| _added := _added d; viewModel := viewModel d; control := Some c; name := name d;
     model := model d; _parent := _parent d; _rawValidators := _rawValidators d;
     _rawAsyncValidators := _rawAsyncValidators d; valueAccessor := valueAccessor d |}.

Definition set_name (v : Js.Value) (d : FormControlName) : FormControlName :=
  {| _added := _added d; viewModel := viewModel d; control := control d; name := v;
     model := model d; _parent := _parent d; _rawValidators := _rawValidators d;
     _rawAsyncValidators := _rawAsyncValidators d; valueAccessor := valueAccessor d |}.

Definition set_model (v : Js.Value) (d : FormControlName) : FormControlName :=
  {| _added := _added d; viewModel := viewModel d; control := control d; name := name d;
     model := v; _parent := _parent d; _rawValidators := _rawValidators d;
     _rawAsyncValidators := _rawAsyncValidators d; valueAccessor := valueAccessor d |}.

Definition set__parent (p : option Js.Ref) (d : FormControlName) : FormControlName :=
  {| _added := _added d; viewModel := viewModel d; control := control d; name := name d;
     model := model d; _parent := p; _rawValidators := _rawValidators d;
     _rawAsyncValidators := _rawAsyncValidators d; valueAccessor := valueAccessor d |}.

Definition set__rawValidators (l : list RawValidator) (d : FormControlName)
  : FormControlName :=
  {| _added := _added d; viewModel := viewModel d; control := control d; name := name d;
     model := model d; _parent := _parent d; _rawValidators := l;
     _rawAsyncValidators := _rawAsyncValidators d; valueAccessor := valueAccessor d |}.

Definition set__rawAsyncValidators (l : list RawAsyncValidator) (d : FormControlName)
  : FormControlName :=
  {| _added := _added d; viewModel := viewModel d; control := control d; name := name d;
     model := model d; _parent := _parent d; _rawValidators := _rawValidators d;
     _rawAsyncValidators := l; valueAccessor := valueAccessor d |}.

Definition set_valueAccessor (a : option ControlValueAccessor) (d : FormControlName)
  : FormControlName :=
  {| _added := _added d; viewModel := viewModel d; control := control d; name := name d;
     model := model d; _parent := _parent d; _rawValidators := _rawValidators d;
     _rawAsyncValidators := _rawAsyncValidators d; valueAccessor := a |}.

(** ** Helpers imported from files that are not part of the sources *)

(** Modelled from the spec: [ReactiveErrors] ([directives/reactive_errors.ts])
    is not among the sources.  Its two exceptions are "distinct, named
    configuration errors", "fatal" and "raised synchronously": each call
    throws its own error. *)
Module ReactiveErrors.

Definition ngModelGroupException : M unit := throw NgModelGroupException.

Definition controlParentException : M unit := throw ControlParentException.

End ReactiveErrors.

(** Modelled from the spec: [controlPath] ([directives/shared.ts]) is not
    among the sources.  The parent container "exposes its own resolved path"
    and the resolver "appends the local segment"; it "fails with
    [PathResolutionError] when no parent container binding can be found". *)
Definition controlPath (name : Js.Value) (parent : option ControlContainer)
  : Completion (list Js.Value) :=
  match parent with
  | Some container => Normal (cc_path container ++ [name])
  | None => Throw PathResolutionError
  end.

(** The remaining imports from [directives/shared.ts], taken as parameters:
    every statement about the directive holds whatever they compute. *)
Class Shared : Type := {
  isPropertyUpdated : gmap string SimpleChange -> Js.Value -> bool;
  composeValidators : list RawValidator -> option ValidatorFn;
  composeAsyncValidators : list RawAsyncValidator -> option AsyncValidatorFn;
  selectValueAccessor :
    FormControlName -> option (list ControlValueAccessor) ->
    Completion (option ControlValueAccessor);
}.

(** The [EventEmitter] held in the field [update] (the class comes from
    [ng-metadata/core]): [emit] delivers the value to the listeners
    subscribed at that instant, synchronously, and ends as the delivery ends,
    so a listener that throws makes [emit] throw.  What the listeners do may
    depend on everything that happened before and on the directive as it is
    when they run. *)
Class EventEmitter : Type := {
  emit : list Event -> FormControlName -> Js.Value -> Completion unit;
}.

(** ** [form_control_name.ts]: the class [FormControlName] *)

Section FormControlName.

Context {shared : Shared} {update : EventEmitter}.

(** The instance as the field initialisers leave it once [super()] has
    returned: [_added = false]; the other fields are as the base class
    [NgControl] (not among the sources) initialised them, [base]. *)
Definition fieldInitialisers (base : FormControlName) : FormControlName :=
  set__added false base.

(** [constructor(parent, validators, asyncValidators, valueAccessors)]; an
    [@Optional()] dependency that is not provided is injected as [null]. *)
Definition constructor (base : FormControlName)
    (parent : option Js.Ref)
    (validators : option (list RawValidator))
    (asyncValidators : option (list RawAsyncValidator))
    (valueAccessors : option (list ControlValueAccessor))
  : Completion FormControlName :=
  let d := fieldInitialisers base in
  (* this._parent = parent *)
  let d := set__parent parent d in
  (* this._rawValidators = validators || [] *)
  let d := set__rawValidators (match validators with Some l => l | None => [] end) d in
  (* this._rawAsyncValidators = asyncValidators || [] *)
  let d := set__rawAsyncValidators
             (match asyncValidators with Some l => l | None => [] end) d in
  (* this.valueAccessor = selectValueAccessor(this, valueAccessors) *)
  match selectValueAccessor d valueAccessors with
  | Normal a => Normal (set_valueAccessor a d)
  | Throw e => Throw e
  end.

(** Reading through a reference: the object it points to, as it is now. *)
Definition deref (h : Heap) (x : option Js.Ref) : option ControlContainer :=
  match x with
  | Some r => Some (h r)
  | None => None
  end.

(** [get path()]: [controlPath(this.name, this._parent!)].  The [!] is erased
    at run time: a [null] parent is passed on as it is. *)
Definition path (w : World) : Completion (list Js.Value) :=
  controlPath (name (this w)) (deref (heap w) (_parent (this w))).

(** [get formDirective()]: [this._parent ? this._parent.formDirective : null]. *)
Definition formDirective (w : World) : option FormDirective :=
  match _parent (this w) with
  | Some p => cc_formDirective (heap w p)
  | None => None
  end.

(** [get validator()]. *)
Definition validator (d : FormControlName) : option ValidatorFn :=
  composeValidators (_rawValidators d).

(** [get asyncValidator()]. *)
Definition asyncValidator (d : FormControlName) : option AsyncValidatorFn :=
  composeAsyncValidators (_rawAsyncValidators d).

(** [this.formDirective.addControl(this)]. *)
Definition call_addControl : M FormControl :=
  fun w =>
    match formDirective w with
    | None => throw TypeError w
    | Some fd => (emit_event (AddControl (this w));;
                  complete (addControl fd (trace w) (this w)))%method w
    end.

(** [this.formDirective.updateModel(this, value)]. *)
Definition call_updateModel (v : Js.Value) : M unit :=
  fun w =>
    match formDirective w with
    | None => throw TypeError w
    | Some fd => (emit_event (UpdateModel (this w) v);;
                  complete (updateModel fd (trace w) (this w) v))%method w
    end.

(** [this.formDirective.removeControl(this)]. *)
Definition call_removeControl : M unit :=
  fun w =>
    match formDirective w with
    | None => throw TypeError w
    | Some fd => (emit_event (RemoveControl (this w));;
                  complete (removeControl fd (trace w) (this w)))%method w
    end.

(** [this.update.emit(value)]. *)
Definition update_emit (v : Js.Value) : M unit :=
  fun w => (emit_event (NgModelChange (this w) v);;
            complete (emit (trace w) (this w) v))%method w.

(** [_checkParentType()]. *)
Definition _checkParentType : M unit :=
  fun w =>
    let parent := _parent (this w) in
    let isa := instanceof (heap w) parent in
    if negb (isa FormGroupName) && isa AbstractFormGroupDirective then
      ReactiveErrors.ngModelGroupException w
    else if negb (isa FormGroupName) && negb (isa FormGroupDirective)
            && negb (isa FormArrayName) then
      ReactiveErrors.controlParentException w
    else ret tt w.

(** The statement
    [if (this.control.disabled && this.valueAccessor!.setDisabledState)
       this.valueAccessor!.setDisabledState!(true)]
    for the control [c] just assigned to [this.control]. *)
Definition applyDisabledState (c : FormControl) : M unit :=
  (d <- get_this;;
   if disabled c then
     match valueAccessor d with
     | None => throw TypeError
     | Some a =>
         match setDisabledState a with
         | Some f => emit_event (SetDisabledState true);; complete (f true)
         | None => ret tt
         end
     end
   else ret tt)%method.

(** [_setUpControl()]. *)
Definition _setUpControl : M unit :=
  (_checkParentType;;
   c <- call_addControl;;
   modify_this (set_control c);;
   applyDisabledState c;;
   modify_this (set__added true))%method.

(** The second statement of [ngOnChanges]:
    [if (isPropertyUpdated(changes, this.viewModel)) {
       this.viewModel = this.model
       this.formDirective.updateModel(this, this.model) }]. *)
Definition updateModelIfChanged (changes : gmap string SimpleChange) : M unit :=
  (d <- get_this;;
   if isPropertyUpdated changes (viewModel d) then
     modify_this (set_viewModel (model d));;
     d <- get_this;;
     call_updateModel (model d)
   else ret tt)%method.

(** [ngOnChanges(changes)]. *)
Definition ngOnChanges (changes : gmap string SimpleChange) : M unit :=
  (d <- get_this;;
   (if negb (_added d) then _setUpControl else ret tt);;
   updateModelIfChanged changes)%method.

(** [ngOnDestroy()]. *)
Definition ngOnDestroy : M unit :=
  fun w =>
    match formDirective w with
    | Some _ => call_removeControl w
    | None => ret tt w
    end.

(** [viewToModelUpdate(newValue)]. *)
Definition viewToModelUpdate (newValue : Js.Value) : M unit :=
  (modify_this (set_viewModel newValue);;
   update_emit newValue)%method.

(** *** The host driving a live directive

    Between two hooks the host writes the inputs, and the container
    directives the instance refers to may change; a hook that throws is
    reported to the host's error channel and the instance stays in use. *)
Inductive Action : Type :=
| WriteName (v : Js.Value)                        (* the [formControlName] input *)
| WriteModel (v : Js.Value)                       (* [this.model] *)
| WriteContainer (r : Js.Ref) (c : ControlContainer)
| OnChanges (changes : gmap string SimpleChange)  (* [ngOnChanges(changes)] *)
| ViewToModelUpdate (newValue : Js.Value).        (* [viewToModelUpdate(newValue)] *)

Definition perform (a : Action) (w : World) : World :=
  match a with
  | WriteName v => fst (modify_this (set_name v) w)
  | WriteModel v => fst (modify_this (set_model v) w)
  | WriteContainer r c =>
      {| this := this w; heap := heap_update (heap w) r c; trace := trace w |}
  | OnChanges changes => fst (ngOnChanges changes w)
  | ViewToModelUpdate v => fst (viewToModelUpdate v w)
  end.

Definition run (actions : list Action) (w : World) : World :=
  fold_left (fun w a => perform a w) actions w.

End FormControlName.

(** ** Reading traces *)

(** The calls that setup makes: registration and the disabled state. *)
Definition is_setup_call (e : Event) : bool :=
  match e with
  | AddControl _ | SetDisabledState _ => true
  | _ => false
  end.

Definition is_AddControl (e : Event) : bool :=
  match e with AddControl _ => true | _ => false end.

Definition is_SetDisabledState (e : Event) : bool :=
  match e with SetDisabledState _ => true | _ => false end.

Definition is_RemoveControl (e : Event) : bool :=
  match e with RemoveControl _ => true | _ => false end.

Definition is_NgModelChange (e : Event) : bool :=
  match e with NgModelChange _ _ => true | _ => false end.

(** How many events of a kind a trace holds. *)
Definition count (p : Event -> bool) (t : list Event) : nat :=
  length (List.filter p t).

(** ** A reference instance of the [shared.ts] helpers *)

Module SharedModel.

(** Modelled from the spec: [isPropertyUpdated] ([directives/shared.ts]) is
    not among the sources.  An update is due when the [model] input is among
    the changes and its new value differs from the cached view value by the
    value-identity check. *)
Definition isPropertyUpdated (changes : gmap string SimpleChange) (viewModel : Js.Value)
  : bool :=
  match changes !! "model" with
  | Some change => negb (looseIdentical viewModel (currentValue change))
  | None => false
  end.

Definition normalizeValidator (v : RawValidator) : ValidatorFn :=
  match v with
  | ValidatorObject f => f
  | ValidatorFunction f => f
  end.

Definition normalizeAsyncValidator (v : RawAsyncValidator) : AsyncValidatorFn :=
  match v with
  | AsyncValidatorObject f => f
  | AsyncValidatorFunction f => f
  end.

(** The union of the error maps, in list order, a later map winning on a
    shared key; no error at all is [null]. *)
Definition mergeErrors (results : list (option ValidationErrors))
  : option ValidationErrors :=
  let merged : ValidationErrors :=
    fold_left (fun acc r => match r with Some e => e ∪ acc | None => acc end)
              results ∅ in
  if Nat.eqb (size merged) 0 then None else Some merged.

(** Modelled from the spec: [composeValidators] ([directives/shared.ts]) is
    not among the sources.  "Empty input composes to null"; otherwise the
    composite "runs every validator in list order" and "returns the union of
    all error mappings". *)
Definition composeValidators (validators : list RawValidator) : option ValidatorFn :=
  match validators with
  | [] => None
  | _ => Some (fun c => mergeErrors (map (fun v => normalizeValidator v c) validators))
  end.

Definition settled {A : Type} (r : Deferred A) : option A :=
  match r with
  | Resolved a => Some a
  | Pending => None
  end.

(** Modelled from the spec: [composeAsyncValidators] ([directives/shared.ts])
    is not among the sources.  The composite "resolves only after all
    complete, merging results the same way". *)
Definition composeAsyncValidators (validators : list RawAsyncValidator)
  : option AsyncValidatorFn :=
  match validators with
  | [] => None
  | _ => Some (fun c =>
                 match mapM (fun v => settled (normalizeAsyncValidator v c)) validators with
                 | Some results => Resolved (mergeErrors results)
                 | None => Pending
                 end)
  end.

Definition has_kind (k : AccessorKind) (a : ControlValueAccessor) : bool :=
  match k, accessorKind a with
  | DefaultAccessor, DefaultAccessor => true
  | BuiltInAccessor, BuiltInAccessor => true
  | CustomAccessor, CustomAccessor => true
  | _, _ => false
  end.

(** Modelled from the spec: [selectValueAccessor] ([directives/shared.ts]) is
    not among the sources.  "A custom accessor, if present, wins over built-in
    ones; exactly one must remain after filtering, else a configuration
    error". *)
Definition selectValueAccessor (dir : FormControlName)
    (valueAccessors : option (list ControlValueAccessor))
  : Completion (option ControlValueAccessor) :=
  let all := match valueAccessors with Some l => l | None => [] end in
  let custom := List.filter (has_kind CustomAccessor) all in
  let builtIn := List.filter (has_kind BuiltInAccessor) all in
  let remaining :=
    match custom, builtIn with
    | _ :: _, _ => custom
    | [], _ :: _ => builtIn
    | [], [] => List.filter (has_kind DefaultAccessor) all
    end in
  match remaining with
  | [a] => Normal (Some a)
  | _ => Throw (CollaboratorError "AccessorSelectionError")
  end.

Definition instance : Shared :=
  Build_Shared isPropertyUpdated composeValidators composeAsyncValidators
               selectValueAccessor.

End SharedModel.

(** ** The specification's wording, as definitions *)

(** The parent-kind check as the specification words it: a parent that is an
    [AbstractFormGroupDirective] but not a [FormGroupName] is the model-group
    error; otherwise a parent that is none of [FormGroupName],
    [FormGroupDirective], [FormArrayName] is the control-parent error. *)
Definition parentKindError (isa : Class -> bool) : option Error :=
  if isa AbstractFormGroupDirective && negb (isa FormGroupName) then
    Some NgModelGroupException
  else if negb (isa FormGroupName || isa FormGroupDirective || isa FormArrayName) then
    Some ControlParentException
  else None.

(** The parent-kind error of the directive in a world. *)
Definition parentKindErrorOf (w : World) : option Error :=
  parentKindError (instanceof (heap w) (_parent (this w))).

(** What the host and the containers decide and no method of the directive
    writes: the inputs, the parent reference, the injected lists, the
    accessor, and the heap of containers. *)
Definition same_bindings (w w' : World) : Prop :=
  name (this w') = name (this w)
  /\ model (this w') = model (this w)
  /\ _parent (this w') = _parent (this w)
  /\ _rawValidators (this w') = _rawValidators (this w)
  /\ _rawAsyncValidators (this w') = _rawAsyncValidators (this w)
  /\ valueAccessor (this w') = valueAccessor (this w)
  /\ heap w' = heap w.

(** ** A small form, for running the directive *)

Module Example.

Definition class_eqb (a b : Class) : bool :=
  match a, b with
  | FormGroupName, FormGroupName => true
  | AbstractFormGroupDirective, AbstractFormGroupDirective => true
  | FormGroupDirective, FormGroupDirective => true
  | FormArrayName, FormArrayName => true
  | _, _ => false
  end.

Definition classes (l : list Class) : Class -> bool :=
  fun C => existsb (class_eqb C) l.

(** Listeners of [ngModelChange] that return. *)
Definition listeners : EventEmitter := {|
  emit := fun _ _ _ => Normal tt;
|}.

(** A listener of [ngModelChange] that throws. *)
Definition failingListener : EventEmitter := {|
  emit := fun _ _ _ => Throw (CollaboratorError "listener failed");
|}.

(** The model node every lookup finds: a disabled control. *)
Definition city : FormControl := {| value := Js.String "Paris"; disabled := true |}.

(** A form directive whose model holds the control. *)
Definition form : FormDirective := {|
  addControl := fun _ _ => Normal city;
  updateModel := fun _ _ _ => Normal tt;
  removeControl := fun _ _ => Normal tt;
|}.

(** A form directive whose model lacks the control: registration throws. *)
Definition emptyForm : FormDirective := {|
  addControl := fun _ _ => Throw (CollaboratorError "Cannot find control");
  updateModel := fun _ _ _ => Normal tt;
  removeControl := fun _ _ => Normal tt;
|}.

Definition formGroupDirective (fd : FormDirective) : ControlContainer := {|
  prototypeChain := classes [FormGroupDirective];
  cc_path := [];
  cc_formDirective := Some fd;
|}.

Definition formGroupName (name : string) (parent : ControlContainer)
  : ControlContainer := {|
  prototypeChain := classes [FormGroupName; AbstractFormGroupDirective];
  cc_path := cc_path parent ++ [Js.String name];
  cc_formDirective := cc_formDirective parent;
|}.

(** A template-driven group: an [AbstractFormGroupDirective] that is not a
    [FormGroupName]. *)
Definition ngModelGroup : ControlContainer := {|
  prototypeChain := classes [AbstractFormGroupDirective];
  cc_path := [Js.String "address"];
  cc_formDirective := Some form;
|}.

(** A template-driven form: a container of none of the tested classes. *)
Definition ngForm : ControlContainer := {|
  prototypeChain := classes [];
  cc_path := [];
  cc_formDirective := Some form;
|}.

(** A [formGroupName] with no form above it. *)
Definition orphanGroup : ControlContainer := {|
  prototypeChain := classes [FormGroupName; AbstractFormGroupDirective];
  cc_path := [Js.String "address"];
  cc_formDirective := None;
|}.

Definition containers : Heap :=
  fun r =>
    match r with
    | 0 => formGroupDirective form
    | 1 => formGroupName "address" (formGroupDirective form)
    | 2 => ngModelGroup
    | 3 => formGroupDirective emptyForm
    | 4 => orphanGroup
    | _ => ngForm
    end.

Definition accessor : ControlValueAccessor := {|
  accessorKind := DefaultAccessor;
  setDisabledState := Some (fun _ => Normal tt);
|}.

(** The instance as a base class leaves it: nothing set. *)
Definition base : FormControlName := {|
  _added := false;
  viewModel := Js.Undefined;
  control := None;
  name := Js.Undefined;
  model := Js.Undefined;
  _parent := None;
  _rawValidators := [];
  _rawAsyncValidators := [];
  valueAccessor := None;
|}.

(** [new FormControlName(parent, null, null, [accessor])], then the host
    writes the [formControlName] input. *)
Definition directive (parent : option Js.Ref) : FormControlName :=
  match constructor (shared := SharedModel.instance) base parent None None
                    (Some [accessor]) with
  | Normal d => set_name (Js.String "city") d
  | Throw _ => base
  end.

Definition world (parent : option Js.Ref) : World := {|
  this := directive parent;
  heap := containers;
  trace := [];
|}.

(** A change record for the [name] input alone. *)
Definition renamed : gmap string SimpleChange :=
  {[ "name" := {| previousValue := Js.String "city";
                  currentValue := Js.String "town";
                  firstChange := false |} ]}.

(** The directive under the group [address] once its first [ngOnChanges]
    has run, and after the host then changes the [formControlName] input. *)
Definition registered : World :=
  run (shared := SharedModel.instance) (update := listeners)
      [OnChanges ∅] (world (Some 1)).

Definition afterRename : World :=
  perform (shared := SharedModel.instance) (update := listeners)
          (WriteName (Js.String "town")) registered.

(** The [address] group after it has moved under a group [billing]. *)
Definition movedGroup : ControlContainer :=
  formGroupName "address" (formGroupName "billing" (formGroupDirective form)).

Definition required : RawValidator :=
  ValidatorFunction (fun c =>
    if Js.strict_equals (value c) (Js.String "")
    then Some {[ "required" := Js.Bool true ]} else None).

End Example.
(** ** [src/shims/util.ts]: the other helpers *)

Module Util.

(** [!!v]: [undefined], [null], [false], [0], [-0], [NaN] and [''] are falsy. *)
Definition truthy (v : Js.Value) : bool :=
  match v with
  | Js.Undefined | Js.Null => false
  | Js.Bool b => b
  | Js.Number x => negb (PrimFloat.is_zero x || PrimFloat.is_nan x)
  | Js.String s => negb (String.eqb s "")
  | Js.Object _ | Js.Function _ => true
  end.

(** What reading a property does on a value that has properties (objects
    and functions through their prototype chain, primitives through their
    wrapper's prototype): it yields a value, or throws what an accessor's
    getter throws. *)
Definition Props : Type := Js.Value -> string -> Completion Js.Value.

(** The member access [v.key]: a [TypeError] on [undefined] and [null],
    otherwise the read of the property. *)
Definition getProperty (props : Props) (v : Js.Value) (key : string)
  : Completion Js.Value :=
  match v with
  | Js.Undefined | Js.Null => Throw TypeError
  | _ => props v key
  end.

(** [!!obj && typeof obj.then === 'function']. *)
Definition isPromise (props : Props) (obj : Js.Value) : Completion bool :=
  if truthy obj then
    match getProperty props obj "then" with
    | Normal f => Normal (String.eqb (Js.typeof f) "function")
    | Throw e => Throw e
    end
  else Normal false.

(** [!!obj && typeof obj.subscribe === 'function']. *)
Definition isObservable (props : Props) (obj : Js.Value) : Completion bool :=
  if truthy obj then
    match getProperty props obj "subscribe" with
    | Normal f => Normal (String.eqb (Js.typeof f) "function")
    | Throw e => Throw e
    end
  else Normal false.

(** How a helper of this file ends: with a value, or with [throw Error(message)]. *)
Inductive Outcome (A : Type) : Type :=
| Returned (a : A)
| ThrownError (message : string).

Arguments Returned {A} a.
Arguments ThrownError {A} message.

(** [getClosureSafeProperty(objWithPropertyToExtract)].  The object is given
    by its enumerable properties in the order [for (let key in ...)] visits
    them; [self] is the identity of the function [getClosureSafeProperty]
    itself, against which each value is compared with [===]. *)
Fixpoint getClosureSafeProperty (self : Js.Ref)
    (objWithPropertyToExtract : list (string * Js.Value)) : Outcome string :=
  match objWithPropertyToExtract with
  | [] => ThrownError "Could not find renamed property on target object."
  | (key, v) :: rest =>
      if Js.strict_equals v (Js.Function self) then Returned key
      else getClosureSafeProperty self rest
  end.

(** [getClosureSafeProperty({ ngInjectableDef: getClosureSafeProperty })]. *)
Definition NG_INJECTABLE_DEF (self : Js.Ref) : Outcome string :=
  getClosureSafeProperty self [("ngInjectableDef", Js.Function self)].

(** [getClosureSafeProperty({ ngInjectorDef: getClosureSafeProperty })]. *)
Definition NG_INJECTOR_DEF (self : Js.Ref) : Outcome string :=
  getClosureSafeProperty self [("ngInjectorDef", Js.Function self)].

(** What [token.toString()] returned. *)
Inductive ToStringResult : Type :=
| Text (res : string)
| NullResult
| UndefinedResult.

(** An object handed to [stringify]: the two properties the function reads,
    each absent ([undefined]) or a string, and the result of its [toString]. *)
Record TokenObject : Type := {
  overriddenName : option string;
  name : option string;
  toString : ToStringResult;
}.

(** The tokens [stringify] is modelled on: strings, arrays of tokens, [null],
    [undefined], and objects (classes and functions included).  Numbers,
    booleans and symbols, whose [toString] is number formatting, are left out. *)
#[warnings="-register-all"]
Inductive Token : Type :=
| TString (s : string)
| TArray (items : list Token)
| TNull
| TUndefined
| TObject (o : TokenObject).

(** A property read used as a condition: a string is truthy unless empty. *)
Definition truthyText (p : option string) : option string :=
  match p with
  | Some EmptyString => None
  | Some s => Some s
  | None => None
  end.

Definition newline : string := String (Ascii.ascii_of_nat 10) EmptyString.

(** [newLineIndex === -1 ? res : res.substring(0, newLineIndex)] with
    [newLineIndex = res.indexOf('\n')]. *)
Definition firstLine (res : string) : string :=
  match String.index 0 newline res with
  | None => res
  | Some newLineIndex => String.substring 0 newLineIndex res
  end.

(** [stringify(token)]. *)
Fixpoint stringify (token : Token) : string :=
  match token with
  | TString s => s
  | TArray items => "[" ++ String.concat ", " (List.map stringify items) ++ "]"
  | TNull => "null"
  | TUndefined => "undefined"
  | TObject o =>
      match truthyText (overriddenName o) with
      | Some n => n
      | None =>
          match truthyText (name o) with
          | Some n => n
          | None =>
              match toString o with
              | Text res => firstLine res
              | NullResult => "null"
              | UndefinedResult => "undefined"
              end
          end
      end
  end.

End Util.

(** ** The renderer's style flags (the [RendererStyleFlags2] enum) *)

Module RendererStyleFlags2.

(** [Important = 1 << 0]. *)
Definition Important : Z := Z.shiftl 1 0.

(** [DashCase = 1 << 1]. *)
Definition DashCase : Z := Z.shiftl 1 1.

End RendererStyleFlags2.

(** ** More of the host's bookkeeping *)

Definition is_UpdateModel (e : Event) : bool :=
  match e with UpdateModel _ _ => true | _ => false end.

(** Two worlds the directive cannot tell apart: the same instance, the same
    history, and the same state of the one container it refers to. *)
Definition same_view (w w' : World) : Prop :=
  this w = this w'
  /\ trace w = trace w'
  /\ deref (heap w) (_parent (this w)) = deref (heap w') (_parent (this w')).

(** A method that cannot tell such worlds apart either: run in both, it ends
    the same way and leaves worlds that are again the same to the directive. *)
Definition view_respecting {A : Type} (m : M A) : Prop :=
  forall w w', same_view w w' ->
    snd (m w) = snd (m w') /\ same_view (fst (m w)) (fst (m w')).

(** ** More runs on the example form *)

Module Example2.

(** An accessor that does not define [setDisabledState]. *)
Definition plainAccessor : ControlValueAccessor := {|
  accessorKind := DefaultAccessor;
  setDisabledState := None;
|}.

(** The directive under the root form, with another accessor (or none). *)
Definition worldWith (a : option ControlValueAccessor) : World := {|
  this := set_valueAccessor a (Example.directive (Some 0));
  heap := Example.containers;
  trace := [];
|}.

(** The host has bound [model] to ["Lyon"] before the first pass. *)
Definition bound : World := {|
  this := set_model (Js.String "Lyon") (Example.directive (Some 1));
  heap := Example.containers;
  trace := [];
|}.

Definition modelChanged : gmap string SimpleChange :=
  {[ "model" := {| previousValue := Js.Undefined;
                   currentValue := Js.String "Lyon";
                   firstChange := true |} ]}.

(** The [address] group once it has lost its form. *)
Definition detached : World :=
  perform (shared := SharedModel.instance) (update := Example.listeners)
          (WriteContainer 1 Example.orphanGroup)
          (perform (shared := SharedModel.instance) (update := Example.listeners)
                   (WriteModel (Js.String "Lyon")) Example.registered).

(** A class token, and an object whose [toString] spans two lines. *)
Definition classToken : Util.Token :=
  Util.TObject {| Util.overriddenName := None;
                  Util.name := Some "FormControlName";
                  Util.toString := Util.Text "class FormControlName" |}.

Definition twoLines : Util.Token :=
  Util.TObject {| Util.overriddenName := Some "";
                  Util.name := None;
                  Util.toString := Util.Text ("function () {" ++ Util.newline ++ "}") |}.

(** Property reads on the objects [7] (a thenable), [8] (a subscribable) and
    [9] (whose [then] is an accessor that throws). *)
Definition props : Util.Props :=
  fun v key =>
    match v with
    | Js.Object 7 =>
        Normal (if String.eqb key "then" then Js.Function 70 else Js.Undefined)
    | Js.Object 8 =>
        Normal (if String.eqb key "subscribe" then Js.Function 80 else Js.Undefined)
    | Js.Object 9 =>
        if String.eqb key "then" then Throw (CollaboratorError "getter failed")
        else Normal Js.Undefined
    | _ => Normal Js.Undefined
    end.

End Example2.

(** C3: [looseIdentical a b] is true exactly when [a === b], or when both
    arguments are numbers and both are NaN; in particular
    [looseIdentical(NaN, NaN)] is true although [NaN === NaN] is false. *)
Theorem looseIdentical_spec :
  (forall a b : Js.Value,
      looseIdentical a b = true <->
      (Js.strict_equals a b = true \/ (is_NaN_number a /\ is_NaN_number b)))
  /\ looseIdentical Js.NaN Js.NaN = true
  /\ Js.strict_equals Js.NaN Js.NaN = false.
Proof.
  split; [|split; reflexivity].
  intros a b. unfold looseIdentical, is_NaN_number. split.
  - intros H. apply orb_prop in H as [H|H]; [by left|right].
    destruct a, b; simpl in H; try discriminate.
    apply andb_prop in H as [Hx Hy]. split; eauto.
  - intros [H|[[x [-> Hx]] [y [-> Hy]]]].
    + by rewrite H.
    + simpl. rewrite Hx, Hy. by rewrite orb_true_r.
Qed.

(** ** Running methods *)

Ltac unfold_methods :=
  unfold ngOnChanges, updateModelIfChanged, _setUpControl, _checkParentType,
    applyDisabledState, call_addControl, call_updateModel, call_removeControl,
    update_emit, viewToModelUpdate, ngOnDestroy,
    ReactiveErrors.ngModelGroupException, ReactiveErrors.controlParentException,
    bind, ret, throw, complete, emit_event, modify_this, get_this in *.

Ltac run_methods := unfold_methods; simpl in *.

Section Properties.

Context {shared : Shared} {update : EventEmitter}.

(** The check alone: it ends as [parentKindError] says and writes nothing. *)
Lemma _checkParentType_refines (w : World) :
  _checkParentType w =
    (w, match parentKindErrorOf w with Some e => Throw e | None => Normal tt end).
Proof.
  unfold _checkParentType, parentKindErrorOf, parentKindError.
  destruct (instanceof _ _ FormGroupName), (instanceof _ _ AbstractFormGroupDirective),
    (instanceof _ _ FormGroupDirective), (instanceof _ _ FormArrayName); reflexivity.
Qed.

(** C2: when the parent is of the wrong kind, the check ends setup with the
    error named for that kind (model-group error for an
    [AbstractFormGroupDirective] that is not a [FormGroupName], control-parent
    error for a parent that is none of the three reactive containers; the two
    differ) before [addControl] is reached: the world, and so the trace of
    collaborator calls, is left as it was, also for the [ngOnChanges] call
    that started the setup. *)
Theorem parent_check_precedes_registration (w : World) (e : Error) :
  parentKindErrorOf w = Some e ->
  _checkParentType w = (w, Throw e)
  /\ _setUpControl w = (w, Throw e)
  /\ (_added (this w) = false -> forall changes, ngOnChanges changes w = (w, Throw e))
  /\ (e = NgModelGroupException \/ e = ControlParentException)
  /\ NgModelGroupException <> ControlParentException.
Proof.
  intros He.
  assert (Hc : _checkParentType w = (w, Throw e))
    by (rewrite _checkParentType_refines, He; reflexivity).
  assert (Hs : _setUpControl w = (w, Throw e))
    by (unfold _setUpControl, bind; rewrite Hc; reflexivity).
  repeat split; try done.
  - intros Ha changes. unfold ngOnChanges, bind, get_this. rewrite Ha. simpl.
    rewrite Hs. reflexivity.
  - unfold parentKindErrorOf, parentKindError in He.
    repeat case_match; simplify_eq; auto.
Qed.

Lemma count_app (p : Event -> bool) (t u : list Event) :
  count p (t ++ u) = count p t + count p u.
Proof. unfold count. rewrite List.filter_app, length_app. reflexivity. Qed.

Lemma count_snoc (p : Event -> bool) (t : list Event) (e : Event) :
  count p (t ++ [e]) = count p t + (if p e then 1 else 0).
Proof. rewrite count_app. unfold count. simpl. destruct (p e); reflexivity. Qed.

(** C9: at setup, once the parent check has passed and [addControl] has
    returned the control, a disabled control whose accessor defines
    [setDisabledState] gets exactly the call [setDisabledState(true)], right
    after the registration call, and setup ends as that call ends; a control
    that is not disabled gets no such call, and setup completes with the
    registration call alone. *)
Theorem setup_applies_disabled_state
    (w : World) (fd : FormDirective) (c : FormControl) :
  parentKindErrorOf w = None ->
  formDirective w = Some fd ->
  addControl fd (trace w) (this w) = Normal c ->
  (disabled c = true ->
   forall a f, valueAccessor (this w) = Some a -> setDisabledState a = Some f ->
     trace (fst (_setUpControl w))
       = trace w ++ [AddControl (this w); SetDisabledState true]
     /\ snd (_setUpControl w) = f true)
  /\ (disabled c = false ->
      _setUpControl w =
        ({| this := set__added true (set_control c (this w));
            heap := heap w;
            trace := trace w ++ [AddControl (this w)] |}, Normal tt)
      /\ count is_SetDisabledState (trace (fst (_setUpControl w)))
         = count is_SetDisabledState (trace w)).
Proof.
  intros Hk Hfd Hc.
  unfold _setUpControl, bind. rewrite _checkParentType_refines, Hk.
  unfold call_addControl, bind, emit_event, complete. rewrite Hfd, Hc.
  unfold applyDisabledState, modify_this, bind, get_this, ret; simpl.
  split.
  - intros Hd a f Ha Hf. rewrite Hd, Ha, Hf. unfold bind, emit_event, complete; simpl.
    destruct (f true) as [[]|err]; simpl; rewrite <- app_assoc; done.
  - intros Hd. rewrite Hd. simpl. split; [done|].
    rewrite count_snoc. simpl. lia.
Qed.



(** *** Frame lemmas *)

Lemma _setUpControl_same_bindings (w : World) :
  same_bindings w (fst (_setUpControl w)).
Proof.
  unfold same_bindings. run_methods.
  repeat (case_match; simpl in *; simplify_eq); done.
Qed.

Lemma updateModelIfChanged_same_bindings (changes : gmap string SimpleChange) (w : World) :
  same_bindings w (fst (updateModelIfChanged changes w)).
Proof.
  unfold same_bindings. run_methods.
  repeat (case_match; simpl in *; simplify_eq); done.
Qed.

Lemma same_bindings_trans (w1 w2 w3 : World) :
  same_bindings w1 w2 -> same_bindings w2 w3 -> same_bindings w1 w3.
Proof. unfold same_bindings. intros; destruct_and!; repeat split; congruence. Qed.

Lemma ngOnChanges_same_bindings (changes : gmap string SimpleChange) (w : World) :
  same_bindings w (fst (ngOnChanges changes w)).
Proof.
  unfold ngOnChanges, bind at 1 2, get_this.
  destruct (negb (_added (this w))).
  - pose proof (_setUpControl_same_bindings w) as H1.
    destruct (_setUpControl w) as [w1 [[]|e]]; simpl in *; [|done].
    eapply same_bindings_trans; [exact H1|apply updateModelIfChanged_same_bindings].
  - unfold ret. apply updateModelIfChanged_same_bindings.
Qed.

(** The model-update step never registers and never touches [_added]. *)
Lemma updateModelIfChanged_no_setup (changes : gmap string SimpleChange) (w : World) :
  _added (this (fst (updateModelIfChanged changes w))) = _added (this w)
  /\ List.filter is_setup_call (trace (fst (updateModelIfChanged changes w)))
     = List.filter is_setup_call (trace w).
Proof.
  run_methods.
  repeat (case_match; simpl in *; simplify_eq); split; try done;
    rewrite List.filter_app; simpl; apply app_nil_r.
Qed.

(** With [_added] set, [ngOnChanges] is the model-update step alone. *)
Lemma ngOnChanges_registered (changes : gmap string SimpleChange) (w : World) :
  _added (this w) = true ->
  ngOnChanges changes w = updateModelIfChanged changes w.
Proof.
  intros Ha. unfold ngOnChanges, bind at 1 2, get_this, ret. rewrite Ha. reflexivity.
Qed.

(** Once [_added] is set, nothing the host does makes the directive register
    or apply the disabled state again. *)
Lemma registered_stays (later : list Action) (w : World) :
  _added (this w) = true ->
  _added (this (run later w)) = true
  /\ List.filter is_setup_call (trace (run later w))
     = List.filter is_setup_call (trace w).
Proof.
  revert w. induction later as [|a later IH]; intros w Ha; [done|].
  assert (Hstep : _added (this (perform a w)) = true
                  /\ List.filter is_setup_call (trace (perform a w))
                     = List.filter is_setup_call (trace w)).
  { destruct a; simpl; try done.
    - rewrite ngOnChanges_registered by done.
      destruct (updateModelIfChanged_no_setup changes w) as [-> ->]. done.
    - split; [done|]. rewrite List.filter_app. simpl. apply app_nil_r. }
  destruct Hstep as [Ha' Ht']. simpl.
  destruct (IH _ Ha') as [-> ->]. done.
Qed.

(** How setup ends: [_added] is set exactly when it completes, and a
    completed setup made one registration call. *)
Lemma _setUpControl_outcome (w : World) :
  _added (this w) = false ->
  match _setUpControl w with
  | (w0, Normal _) =>
      _added (this w0) = true
      /\ count is_AddControl (trace w0) = S (count is_AddControl (trace w))
  | (w0, Throw _) => _added (this w0) = false
  end.
Proof.
  intros Ha. run_methods.
  repeat (case_match; simpl in *; simplify_eq); try done;
    split; try done; rewrite ?count_snoc; simpl; lia.
Qed.

(** C1 (as amended): construction leaves [_added] unset and runs no setup.
    An [ngOnChanges] call made while [_added] is unset runs setup.  If that
    setup throws, the call ends with the same error and [_added] stays unset
    (so the next call runs setup again).  If it completes, it has made one
    registration call and set [_added], the call continues with the
    model-update step, and from then on no [ngOnChanges] call, whatever the
    host does in between, registers or applies the disabled state again. *)
Theorem setup_completes_at_most_once
    (base : FormControlName) (parent : option Js.Ref)
    (validators : option (list RawValidator))
    (asyncValidators : option (list RawAsyncValidator))
    (valueAccessors : option (list ControlValueAccessor))
    (w : World) (changes : gmap string SimpleChange) :
  (forall d, constructor base parent validators asyncValidators valueAccessors = Normal d ->
             _added d = false)
  /\ (_added (this w) = false ->
      match _setUpControl w with
      | (w0, Throw e) =>
          ngOnChanges changes w = (w0, Throw e) /\ _added (this w0) = false
      | (w0, Normal _) =>
          ngOnChanges changes w = updateModelIfChanged changes w0
          /\ _added (this w0) = true
          /\ count is_AddControl (trace w0) = S (count is_AddControl (trace w))
          /\ forall later : list Action,
               let w' := run later (fst (ngOnChanges changes w)) in
               _added (this w') = true
               /\ List.filter is_setup_call (trace w')
                  = List.filter is_setup_call (trace w0)
      end).
Proof.
  split.
  - unfold constructor. intros d Hd. case_match; simplify_eq. reflexivity.
  - intros Ha. pose proof (_setUpControl_outcome w Ha) as Ho.
    assert (Hn : ngOnChanges changes w =
                 match _setUpControl w with
                 | (w0, Normal _) => updateModelIfChanged changes w0
                 | (w0, Throw e) => (w0, Throw e)
                 end).
    { unfold ngOnChanges, bind at 1 2, get_this. rewrite Ha. reflexivity. }
    destruct (_setUpControl w) as [w0 [[]|e]].
    + destruct Ho as [Ha0 Hcount]. repeat split; try done.
      * rewrite Hn.
        destruct (updateModelIfChanged_no_setup changes w0) as [Hu _].
        destruct (registered_stays later (fst (updateModelIfChanged changes w0)))
          as [H1 _]; [congruence|done].
      * rewrite Hn.
        destruct (updateModelIfChanged_no_setup changes w0) as [Hu Ht].
        destruct (registered_stays later (fst (updateModelIfChanged changes w0)))
          as [_ H2]; [congruence|]. rewrite H2. exact Ht.
    + done.
Qed.

(** C4 (as amended): once [_added] is set, an [ngOnChanges] call is the
    model-update step and nothing else, whichever inputs changed: it never
    runs setup again, and it holds no test on the [name] input.  When
    [isPropertyUpdated] reports no update the call returns normally and
    changes nothing; when it reports one, the call caches the model value and
    ends as [formDirective.updateModel] ends.  So when the host has written a
    new name into the [name] input, the next call is not rejected: it is
    again the model-update step alone, it keeps the new name, and [path] then
    resolves with it, as the parent's current path with the new name
    appended. *)
Theorem registered_ngOnChanges_only_updates_model
    (w : World) (changes : gmap string SimpleChange) :
  _added (this w) = true ->
  ngOnChanges changes w = updateModelIfChanged changes w
  /\ _added (this (fst (ngOnChanges changes w))) = true
  /\ List.filter is_setup_call (trace (fst (ngOnChanges changes w)))
     = List.filter is_setup_call (trace w)
  /\ (isPropertyUpdated changes (viewModel (this w)) = false ->
      ngOnChanges changes w = (w, Normal tt))
  /\ (isPropertyUpdated changes (viewModel (this w)) = true ->
      forall fd, formDirective w = Some fd ->
        let d := set_viewModel (model (this w)) (this w) in
        ngOnChanges changes w =
          ({| this := d; heap := heap w;
              trace := trace w ++ [UpdateModel d (model (this w))] |},
           updateModel fd (trace w) d (model (this w))))
  /\ (forall newName : Js.Value,
        let renamed := perform (WriteName newName) w in
        _added (this renamed) = true
        /\ ngOnChanges changes renamed = updateModelIfChanged changes renamed
        /\ (isPropertyUpdated changes (viewModel (this w)) = false ->
            ngOnChanges changes renamed = (renamed, Normal tt))
        /\ List.filter is_setup_call (trace (fst (ngOnChanges changes renamed)))
           = List.filter is_setup_call (trace w)
        /\ name (this (fst (ngOnChanges changes renamed))) = newName
        /\ path (fst (ngOnChanges changes renamed))
           = controlPath newName (deref (heap w) (_parent (this w)))).
Proof.
  intros Ha.
  assert (Hnone : forall w0, isPropertyUpdated changes (viewModel (this w0)) = false ->
                    updateModelIfChanged changes w0 = (w0, Normal tt)).
  { intros [d h t] Hp. run_methods. rewrite Hp. reflexivity. }
  rewrite ngOnChanges_registered by done.
  destruct (updateModelIfChanged_no_setup changes w) as [Hu Ht].
  split_and!; try congruence.
  - apply Hnone.
  - intros Hp fd Hfd. run_methods. unfold formDirective in *. simpl.
    rewrite Hp. simpl. rewrite Hfd. reflexivity.
  - intros newName renamed.
    assert (Har : _added (this renamed) = true) by exact Ha.
    destruct (updateModelIfChanged_no_setup changes renamed) as [_ Htr].
    destruct (ngOnChanges_same_bindings changes renamed)
      as (Hn & _ & Hp' & _ & _ & _ & Hh).
    split_and!.
    + exact Har.
    + apply ngOnChanges_registered. exact Har.
    + intros Hp. rewrite ngOnChanges_registered by exact Har. apply Hnone. exact Hp.
    + rewrite ngOnChanges_registered by exact Har. exact Htr.
    + rewrite Hn. reflexivity.
    + unfold path. rewrite Hn, Hp', Hh. reflexivity.
Qed.

(** C5: the [path] getter of a directive with a parent is, at every read, the
    parent container's current path with the directive's current name
    appended.  Nothing else enters it: two worlds with the same name, the same
    parent reference and the same state of that parent give the same path; a
    change of the parent container or of the name shows in the next read,
    registered or not; and [ngOnChanges] leaves the path as it was. *)
Theorem path_is_recomputed (w : World) (p : Js.Ref) :
  _parent (this w) = Some p ->
  path w = Normal (cc_path (heap w p) ++ [name (this w)])
  /\ (forall w', name (this w') = name (this w) ->
                 _parent (this w') = Some p ->
                 heap w' p = heap w p ->
                 path w' = path w)
  /\ (forall c, path (perform (WriteContainer p c) w)
                = Normal (cc_path c ++ [name (this w)]))
  /\ (forall v, path (perform (WriteName v) w)
                = Normal (cc_path (heap w p) ++ [v]))
  /\ (forall changes, path (fst (ngOnChanges changes w)) = path w).
Proof.
  intros Hp. unfold path, controlPath, deref. rewrite Hp. repeat split.
  - intros w' Hn Hp' Hh. rewrite Hp', Hn, Hh. reflexivity.
  - intros c. simpl. rewrite Hp. unfold heap_update. rewrite Nat.eqb_refl. reflexivity.
  - intros v. simpl. rewrite Hp. reflexivity.
  - intros changes.
    destruct (ngOnChanges_same_bindings changes w) as (Hn & _ & Hp' & _ & _ & _ & Hh).
    rewrite Hp', Hp, Hn, Hh. reflexivity.
Qed.

(** C8: the [validator] and [asyncValidator] getters are, at every read,
    [composeValidators] and [composeAsyncValidators] applied to the current
    raw lists.  Nothing else enters them: a new raw list shows in the next
    read, two instances with the same raw list give the same composite, and
    no method of the directive changes what the getters return. *)
Theorem validators_are_recomputed (w : World) :
  validator (this w) = composeValidators (_rawValidators (this w))
  /\ asyncValidator (this w) = composeAsyncValidators (_rawAsyncValidators (this w))
  /\ (forall l, validator (set__rawValidators l (this w)) = composeValidators l)
  /\ (forall l, asyncValidator (set__rawAsyncValidators l (this w))
                = composeAsyncValidators l)
  /\ (forall d', _rawValidators d' = _rawValidators (this w) ->
                 validator d' = validator (this w))
  /\ (forall d', _rawAsyncValidators d' = _rawAsyncValidators (this w) ->
                 asyncValidator d' = asyncValidator (this w))
  /\ (forall later : list Action,
        validator (this (run later w)) = validator (this w)
        /\ asyncValidator (this (run later w)) = asyncValidator (this w)).
Proof.
  unfold validator, asyncValidator. repeat split; try (intros; congruence).
  - revert w. induction later as [|a later IH]; intros w; [done|].
    simpl. rewrite IH. f_equal.
    destruct a; simpl; try done.
    apply (ngOnChanges_same_bindings changes w).
  - revert w. induction later as [|a later IH]; intros w; [done|].
    simpl. rewrite IH. f_equal.
    destruct a; simpl; try done.
    apply (ngOnChanges_same_bindings changes w).
Qed.

(** C10: a constructed instance holds the injected validator lists, with the
    empty list in place of an absent (null) one, so both getters compose over
    a list; and construction fails only where accessor selection fails. *)
Theorem constructor_normalises_lists
    (base : FormControlName) (parent : option Js.Ref)
    (validators : option (list RawValidator))
    (asyncValidators : option (list RawAsyncValidator))
    (valueAccessors : option (list ControlValueAccessor)) :
  (forall d,
      constructor base parent validators asyncValidators valueAccessors = Normal d ->
      _rawValidators d = match validators with Some l => l | None => [] end
      /\ _rawAsyncValidators d = match asyncValidators with Some l => l | None => [] end
      /\ (validators = None -> _rawValidators d = [] /\ validator d = composeValidators [])
      /\ (asyncValidators = None ->
          _rawAsyncValidators d = [] /\ asyncValidator d = composeAsyncValidators []))
  /\ (forall e,
        constructor base parent validators asyncValidators valueAccessors = Throw e ->
        exists d0, selectValueAccessor d0 valueAccessors = Throw e).
Proof.
  unfold constructor, validator, asyncValidator. split.
  - intros d Hd. case_match; simplify_eq. simpl.
    repeat split; try done; subst; reflexivity.
  - intros e He. case_match; simplify_eq. eauto.
Qed.

End Properties.

(** ** The directive at work on the example form *)

Section Runs.

Local Existing Instance SharedModel.instance.
Local Existing Instance Example.listeners.

(** C1, as first stated, fails: setup can run twice.  The model lacks the
    control: both [ngOnChanges] calls run setup, both
    registrations throw, and [_added] is never set. *)
Lemma setup_runs_again_after_failure :
  _added (this (Example.world (Some 3))) = false
  /\ trace (Example.world (Some 3)) = []
  /\ snd (ngOnChanges ∅ (Example.world (Some 3)))
     = Throw (CollaboratorError "Cannot find control")
  /\ count is_AddControl
       (trace (run [OnChanges ∅; OnChanges ∅] (Example.world (Some 3)))) = 2
  /\ _added (this (run [OnChanges ∅; OnChanges ∅] (Example.world (Some 3)))) = false.
Proof. vm_compute. repeat split. Qed.

(** C4, as first stated, fails: a rename is not rejected.  A registered
    directive whose [name] input changes: [ngOnChanges] returns
    normally, makes no call, and the path now ends in the new name. *)
Lemma rename_after_registration_is_accepted :
  _added (this Example.registered) = true
  /\ path Example.registered = Normal [Js.String "address"; Js.String "city"]
  /\ name (this Example.afterRename) = Js.String "town"
  /\ snd (ngOnChanges Example.renamed Example.afterRename) = Normal tt
  /\ trace (fst (ngOnChanges Example.renamed Example.afterRename))
     = trace Example.registered
  /\ path (fst (ngOnChanges Example.renamed Example.afterRename))
     = Normal [Js.String "address"; Js.String "town"].
Proof. vm_compute. repeat split. Qed.


(** C1 on the example form: the first call registers, and nothing the host
    does later registers again. *)
Lemma setup_completes_at_most_once_witness :
  _added (this (Example.world (Some 0))) = false
  /\ snd (_setUpControl (Example.world (Some 0))) = Normal tt
  /\ forall later : list Action,
       _added (this (run later (fst (ngOnChanges ∅ (Example.world (Some 0)))))) = true
       /\ List.filter is_setup_call
            (trace (run later (fst (ngOnChanges ∅ (Example.world (Some 0))))))
          = [AddControl (Example.directive (Some 0)); SetDisabledState true].
Proof.
  split; [reflexivity|]. split; [reflexivity|].
  pose proof (proj2 (setup_completes_at_most_once
                       Example.base None None None None
                       (Example.world (Some 0)) ∅) eq_refl) as H.
  simpl in H. destruct H as (_ & _ & _ & H). exact H.
Defined.

(** C2 under a template-driven group, and with no parent at all. *)
Lemma parent_check_precedes_registration_witness :
  parentKindErrorOf (Example.world (Some 2)) = Some NgModelGroupException
  /\ parentKindErrorOf (Example.world None) = Some ControlParentException
  /\ ngOnChanges ∅ (Example.world (Some 2))
     = (Example.world (Some 2), Throw NgModelGroupException)
  /\ ngOnChanges ∅ (Example.world None)
     = (Example.world None, Throw ControlParentException).
Proof.
  split; [reflexivity|]. split; [reflexivity|]. split.
  - apply (parent_check_precedes_registration
             (Example.world (Some 2)) NgModelGroupException eq_refl); reflexivity.
  - apply (parent_check_precedes_registration
             (Example.world None) ControlParentException eq_refl); reflexivity.
Defined.

(** C4 on the registered directive renamed from [city] to [town]: the call
    changes nothing, and [path] ends in the new name. *)
Lemma registered_ngOnChanges_only_updates_model_witness :
  _added (this Example.registered) = true
  /\ isPropertyUpdated Example.renamed (viewModel (this Example.registered)) = false
  /\ ngOnChanges Example.renamed Example.afterRename
     = (Example.afterRename, Normal tt)
  /\ path (fst (ngOnChanges Example.renamed Example.afterRename))
     = Normal [Js.String "address"; Js.String "town"].
Proof.
  split; [reflexivity|]. split; [reflexivity|].
  destruct (registered_ngOnChanges_only_updates_model
              Example.registered Example.renamed eq_refl)
    as (_ & _ & _ & _ & _ & H).
  destruct (H (Js.String "town")) as (_ & _ & Hret & _ & _ & Hpath).
  split; [exact (Hret eq_refl)|exact Hpath].
Defined.

(** C5: the parent group moves under [billing] after registration, and the
    next read of [path] follows it. *)
Lemma path_is_recomputed_witness :
  _parent (this Example.registered) = Some 1
  /\ path Example.registered = Normal [Js.String "address"; Js.String "city"]
  /\ path (perform (WriteContainer 1 Example.movedGroup) Example.registered)
     = Normal [Js.String "billing"; Js.String "address"; Js.String "city"].
Proof.
  split; [reflexivity|].
  pose proof (path_is_recomputed Example.registered 1 eq_refl) as (H1 & _ & H2 & _).
  split; [exact H1|exact (H2 Example.movedGroup)].
Defined.


(** C8: the composite follows the raw list, not the rest of the instance. *)
Lemma validators_are_recomputed_witness :
  _rawValidators (set__rawValidators [Example.required] (this Example.registered))
  = _rawValidators (set__rawValidators [Example.required] (this Example.afterRename))
  /\ validator (set__rawValidators [Example.required] (this Example.afterRename))
     = validator (set__rawValidators [Example.required] (this Example.registered)).
Proof.
  split; [reflexivity|].
  pose proof (validators_are_recomputed
                {| this := set__rawValidators [Example.required] (this Example.registered);
                   heap := Example.containers; trace := [] |})
    as (_ & _ & _ & _ & H & _).
  apply H. reflexivity.
Defined.

(** C9: the example control is disabled and the accessor defines
    [setDisabledState]. *)
Lemma setup_applies_disabled_state_witness :
  parentKindErrorOf (Example.world (Some 0)) = None
  /\ formDirective (Example.world (Some 0)) = Some Example.form
  /\ disabled Example.city = true
  /\ valueAccessor (this (Example.world (Some 0))) = Some Example.accessor
  /\ trace (fst (_setUpControl (Example.world (Some 0))))
     = [AddControl (this (Example.world (Some 0))); SetDisabledState true]
  /\ snd (_setUpControl (Example.world (Some 0))) = Normal tt.
Proof.
  split; [reflexivity|]. split; [reflexivity|]. split; [reflexivity|].
  split; [reflexivity|].
  pose proof (setup_applies_disabled_state
                (Example.world (Some 0)) Example.form Example.city
                eq_refl eq_refl eq_refl) as [H _].
  exact (H eq_refl Example.accessor (fun _ => Normal tt) eq_refl eq_refl).
Defined.

(** C10: construction with both validator lists absent. *)
Lemma constructor_normalises_lists_witness :
  constructor Example.base (Some 0) None None (Some [Example.accessor])
  = Normal (set_valueAccessor (Some Example.accessor)
              (set__parent (Some 0) Example.base))
  /\ _rawValidators (set_valueAccessor (Some Example.accessor)
                       (set__parent (Some 0) Example.base)) = []
  /\ _rawAsyncValidators (set_valueAccessor (Some Example.accessor)
                            (set__parent (Some 0) Example.base)) = [].
Proof.
  split; [reflexivity|].
  pose proof (constructor_normalises_lists
                Example.base (Some 0) None None (Some [Example.accessor])) as [H _].
  specialize (H _ eq_refl) as (_ & _ & H1 & H2).
  split; [exact (proj1 (H1 eq_refl))|exact (proj1 (H2 eq_refl))].
Defined.

End Runs.

(** ** Further properties of the directive *)

Section MoreProperties.

Context {shared : Shared} {update : EventEmitter}.

(** Setup, once the parent check has passed, up to the registration call. *)
Lemma _setUpControl_after_check (w : World) :
  parentKindErrorOf w = None ->
  _setUpControl w =
    match formDirective w with
    | None => (w, Throw TypeError)
    | Some fd =>
        match addControl fd (trace w) (this w) with
        | Throw e =>
            ({| this := this w; heap := heap w;
                trace := trace w ++ [AddControl (this w)] |}, Throw e)
        | Normal c =>
            (applyDisabledState c;; modify_this (set__added true))%method
              {| this := set_control c (this w); heap := heap w;
                 trace := trace w ++ [AddControl (this w)] |}
        end
    end.
Proof.
  intros Hk. unfold _setUpControl, bind at 1. rewrite _checkParentType_refines, Hk.
  unfold call_addControl, bind, emit_event, complete, modify_this, throw.
  destruct (formDirective w) as [fd|]; [|reflexivity]. simpl.
  destruct (addControl fd (trace w) (this w)); reflexivity.
Qed.

(** X1: a parent of an accepted kind with no form directive above it: setup
    throws a [TypeError] on the registration call, before any call is made or
    any field written, and so does the first [ngOnChanges]. *)
Theorem setup_needs_a_form (w : World) (changes : gmap string SimpleChange) :
  parentKindErrorOf w = None ->
  formDirective w = None ->
  _setUpControl w = (w, Throw TypeError)
  /\ (_added (this w) = false -> ngOnChanges changes w = (w, Throw TypeError)).
Proof.
  intros Hk Hfd.
  assert (Hs : _setUpControl w = (w, Throw TypeError))
    by (rewrite _setUpControl_after_check, Hfd; done).
  split; [exact Hs|].
  intros Ha. unfold ngOnChanges, bind at 1 2, get_this. rewrite Ha. simpl.
  rewrite Hs. reflexivity.
Qed.

(** X2: when [addControl] throws, setup ends with that error right after the
    call: [control] is not assigned and [_added] is not touched. *)
Theorem failed_registration_writes_nothing
    (w : World) (fd : FormDirective) (e : Error) :
  parentKindErrorOf w = None ->
  formDirective w = Some fd ->
  addControl fd (trace w) (this w) = Throw e ->
  _setUpControl w =
    ({| this := this w; heap := heap w;
        trace := trace w ++ [AddControl (this w)] |}, Throw e).
Proof.
  intros Hk Hfd He. rewrite _setUpControl_after_check, Hfd, He; done.
Qed.

(** X3: a disabled control makes setup dereference the value accessor.  With
    no accessor it throws a [TypeError]; with an accessor whose
    [setDisabledState] throws it ends with that error.  Either way the
    registration call has been made and [control] assigned, but [_added] is
    left as it was. *)
Theorem disabled_state_failure_after_registration
    (w : World) (fd : FormDirective) (c : FormControl) :
  parentKindErrorOf w = None ->
  formDirective w = Some fd ->
  addControl fd (trace w) (this w) = Normal c ->
  disabled c = true ->
  (valueAccessor (this w) = None ->
   _setUpControl w =
     ({| this := set_control c (this w); heap := heap w;
         trace := trace w ++ [AddControl (this w)] |}, Throw TypeError))
  /\ (forall a f e,
        valueAccessor (this w) = Some a -> setDisabledState a = Some f ->
        f true = Throw e ->
        _setUpControl w =
          ({| this := set_control c (this w); heap := heap w;
              trace := trace w ++ [AddControl (this w); SetDisabledState true] |},
           Throw e)).
Proof.
  intros Hk Hfd Hc Hd. rewrite _setUpControl_after_check, Hfd, Hc by done.
  unfold applyDisabledState, bind, get_this, modify_this, emit_event, complete, throw.
  simpl. rewrite Hd. split.
  - intros ->. reflexivity.
  - intros a f e -> -> ->. simpl. rewrite <- app_assoc. reflexivity.
Qed.

(** X4: a disabled control whose accessor does not define [setDisabledState]:
    setup completes with the registration call alone. *)
Theorem disabled_state_skipped_without_method
    (w : World) (fd : FormDirective) (c : FormControl) (a : ControlValueAccessor) :
  parentKindErrorOf w = None ->
  formDirective w = Some fd ->
  addControl fd (trace w) (this w) = Normal c ->
  disabled c = true ->
  valueAccessor (this w) = Some a ->
  setDisabledState a = None ->
  _setUpControl w =
    ({| this := set__added true (set_control c (this w)); heap := heap w;
        trace := trace w ++ [AddControl (this w)] |}, Normal tt).
Proof.
  intros Hk Hfd Hc Hd Ha Hm. rewrite _setUpControl_after_check, Hfd, Hc by done.
  unfold applyDisabledState, bind, get_this, modify_this, ret.
  simpl. rewrite Hd, Ha, Hm. reflexivity.
Qed.

(** What a completed setup has done. *)
Lemma _setUpControl_completed (w w0 : World) :
  _setUpControl w = (w0, Normal tt) ->
  exists fd c mid,
    formDirective w = Some fd
    /\ addControl fd (trace w) (this w) = Normal c
    /\ this w0 = set__added true (set_control c (this w))
    /\ heap w0 = heap w
    /\ trace w0 = trace w ++ AddControl (this w) :: mid
    /\ (mid = [] \/ mid = [SetDisabledState true]).
Proof.
  intros Hs. destruct (parentKindErrorOf w) as [e|] eqn:Hk.
  { unfold _setUpControl, bind at 1 in Hs. rewrite _checkParentType_refines, Hk in Hs.
    discriminate. }
  rewrite _setUpControl_after_check in Hs by done.
  destruct (formDirective w) as [fd|]; [|discriminate].
  destruct (addControl fd (trace w) (this w)) as [c|e] eqn:Hc; [|discriminate].
  exists fd, c.
  unfold applyDisabledState, bind, get_this, modify_this, emit_event, complete,
    ret, throw in Hs. simpl in Hs.
  repeat (case_match; simpl in *; simplify_eq).
  - exists [SetDisabledState true]. rewrite <- app_assoc. simpl. eauto 10.
  - exists []. eauto 10.
  - exists []. eauto 10.
Qed.

(** X5: the first pass, when setup completes and [isPropertyUpdated] reports
    an update: registration comes first, then the cache is set to the model
    value, then [formDirective.updateModel(this, this.model)] is called, on a
    directive that is already registered; the pass ends as that call ends. *)
Theorem first_pass_registers_then_updates
    (w w0 : World) (fd : FormDirective) (changes : gmap string SimpleChange) :
  _added (this w) = false ->
  _setUpControl w = (w0, Normal tt) ->
  formDirective w = Some fd ->
  isPropertyUpdated changes (viewModel (this w)) = true ->
  let d := set_viewModel (model (this w)) (this w0) in
  ngOnChanges changes w =
    ({| this := d; heap := heap w;
        trace := trace w0 ++ [UpdateModel d (model (this w))] |},
     updateModel fd (trace w0) d (model (this w)))
  /\ _added d = true
  /\ viewModel d = model (this w)
  /\ exists mid, trace w0 = trace w ++ AddControl (this w) :: mid
                 /\ (mid = [] \/ mid = [SetDisabledState true]).
Proof.
  intros Ha Hs Hfd Hp.
  destruct (_setUpControl_completed w w0 Hs)
    as (fd' & c & mid & Hfd' & Hc & Hthis & Hheap & Htrace & Hmid).
  simpl. repeat split.
  - unfold ngOnChanges, bind at 1 2, get_this. rewrite Ha. simpl. rewrite Hs.
    unfold updateModelIfChanged, bind, get_this, modify_this, call_updateModel,
      emit_event, complete.
    assert (Hv : viewModel (this w0) = viewModel (this w)) by (rewrite Hthis; done).
    assert (Hm : model (this w0) = model (this w)) by (rewrite Hthis; done).
    rewrite Hv, Hp. simpl.
    assert (Hf : formDirective
                   {| this := set_viewModel (model (this w0)) (this w0);
                      heap := heap w0; trace := trace w0 |} = Some fd).
    { unfold formDirective in *. simpl. rewrite Hthis, Hheap. simpl. exact Hfd. }
    rewrite Hf. simpl. rewrite Hm, Hheap. reflexivity.
  - rewrite Hthis. reflexivity.
  - eauto.
Qed.

(** X6: a registered directive whose parent no longer yields a form
    directive: when [isPropertyUpdated] reports an update, [ngOnChanges]
    overwrites the cached view value with the model value and then throws a
    [TypeError]; no call is made. *)
Theorem model_update_without_form (w : World) (changes : gmap string SimpleChange) :
  _added (this w) = true ->
  formDirective w = None ->
  isPropertyUpdated changes (viewModel (this w)) = true ->
  ngOnChanges changes w =
    ({| this := set_viewModel (model (this w)) (this w);
        heap := heap w; trace := trace w |}, Throw TypeError).
Proof.
  intros Ha Hfd Hp. rewrite ngOnChanges_registered by done.
  unfold updateModelIfChanged, bind, get_this, modify_this, call_updateModel, throw.
  rewrite Hp. unfold formDirective in *. simpl. rewrite Hfd. reflexivity.
Qed.

(** X7: [ngOnDestroy] keeps no record of having run and does not look at
    [_added]: it leaves the instance as it was, and as long as a form
    directive is reachable every call makes one more [removeControl] call. *)
Theorem ngOnDestroy_is_not_idempotent (w : World) (fd : FormDirective) :
  formDirective w = Some fd ->
  this (fst (ngOnDestroy w)) = this w
  /\ trace (fst (ngOnDestroy (fst (ngOnDestroy w))))
     = trace w ++ [RemoveControl (this w); RemoveControl (this w)].
Proof.
  intros Hfd.
  assert (H1 : fst (ngOnDestroy w) =
               {| this := this w; heap := heap w;
                  trace := trace w ++ [RemoveControl (this w)] |}).
  { unfold ngOnDestroy, call_removeControl. rewrite Hfd. reflexivity. }
  rewrite H1. split; [reflexivity|].
  unfold ngOnDestroy, call_removeControl, formDirective in *. simpl.
  rewrite Hfd. simpl. rewrite <- app_assoc. reflexivity.
Qed.

(** X9: one [ngOnChanges] call makes at most one [addControl] call, at most
    one [setDisabledState] call and at most one [updateModel] call. *)
Theorem ngOnChanges_call_budget (changes : gmap string SimpleChange) (w : World) :
  count is_AddControl (trace (fst (ngOnChanges changes w)))
    <= S (count is_AddControl (trace w))
  /\ count is_SetDisabledState (trace (fst (ngOnChanges changes w)))
     <= S (count is_SetDisabledState (trace w))
  /\ count is_UpdateModel (trace (fst (ngOnChanges changes w)))
     <= S (count is_UpdateModel (trace w)).
Proof.
  run_methods.
  repeat (case_match; simpl in *; simplify_eq);
    rewrite ?count_app; unfold count; simpl; lia.
Qed.

(** Once [_added] is set, nothing the host does writes [control]. *)
Lemma registered_keeps_control (later : list Action) (w : World) :
  _added (this w) = true ->
  control (this (run later w)) = control (this w).
Proof.
  revert w. induction later as [|a later IH]; intros w Ha; [done|].
  simpl. rewrite IH by (apply (registered_stays [a] w Ha)).
  destruct a; simpl; try done.
  rewrite ngOnChanges_registered by done.
  run_methods. repeat (case_match; simpl in *; simplify_eq); done.
Qed.

(** X10: after a completed setup, [control] is the node [addControl]
    returned, and it stays that node whatever the host does afterwards:
    later [ngOnChanges] calls, input writes, changes of the containers and
    [viewToModelUpdate] calls never replace it. *)
Theorem control_is_fixed_by_registration (w w0 : World) (later : list Action) :
  _setUpControl w = (w0, Normal tt) ->
  exists fd c,
    formDirective w = Some fd
    /\ addControl fd (trace w) (this w) = Normal c
    /\ control (this w0) = Some c
    /\ control (this (run later w0)) = Some c.
Proof.
  intros Hs.
  destruct (_setUpControl_completed w w0 Hs)
    as (fd & c & mid & Hfd & Hc & Hthis & _).
  exists fd, c. repeat split; try done.
  - rewrite Hthis. reflexivity.
  - rewrite registered_keeps_control; rewrite Hthis; reflexivity.
Qed.

(** *** Which containers the directive reads *)

Lemma same_view_reads (w w' : World) :
  same_view w w' ->
  (forall C, instanceof (heap w) (_parent (this w)) C
             = instanceof (heap w') (_parent (this w')) C)
  /\ formDirective w = formDirective w'.
Proof.
  unfold same_view, instanceof, formDirective, deref.
  intros (Ht & _ & Hd). rewrite <- Ht in *.
  destruct (_parent (this w)); [|done].
  injection Hd as Hd. rewrite Hd. done.
Qed.

Lemma ret_respects {A : Type} (a : A) : view_respecting (ret a).
Proof. intros w w' Hv. done. Qed.

Lemma bind_respects {A B : Type} (m : M A) (k : A -> M B) :
  view_respecting m -> (forall a, view_respecting (k a)) ->
  view_respecting (bind m k).
Proof.
  intros Hm Hk w w' Hv. unfold bind.
  destruct (Hm w w' Hv) as [Hr Hv1].
  destruct (m w) as [w1 [a|e]], (m w') as [w1' [a'|e']]; simpl in *; simplify_eq.
  - apply Hk. exact Hv1.
  - done.
Qed.

Lemma get_this_respects : view_respecting get_this.
Proof. intros w w' Hv. split; [|done]. simpl. f_equal. apply Hv. Qed.

Lemma modify_this_respects (f : FormControlName -> FormControlName) :
  (forall d, _parent (f d) = _parent d) ->
  view_respecting (modify_this f).
Proof.
  intros Hf w w' (Ht & Htr & Hd). split; [done|].
  repeat split; simpl; [congruence|done|].
  rewrite !Hf. exact Hd.
Qed.

Lemma _checkParentType_respects : view_respecting _checkParentType.
Proof.
  intros w w' Hv. rewrite !_checkParentType_refines. simpl.
  unfold parentKindErrorOf.
  destruct (same_view_reads w w' Hv) as [Hi _].
  assert (He : parentKindError (instanceof (heap w) (_parent (this w)))
               = parentKindError (instanceof (heap w') (_parent (this w'))))
    by (unfold parentKindError; rewrite !Hi; reflexivity).
  rewrite He. done.
Qed.

Lemma call_addControl_respects : view_respecting call_addControl.
Proof.
  intros w w' Hv. destruct (same_view_reads w w' Hv) as [_ Hf].
  destruct Hv as (Ht & Htr & Hd).
  unfold call_addControl, bind, emit_event, complete, throw. rewrite <- Hf.
  destruct (formDirective w); simpl; [|done].
  rewrite <- Ht, <- Htr. split; [done|]. repeat split; simpl; congruence.
Qed.

Lemma call_updateModel_respects (v : Js.Value) : view_respecting (call_updateModel v).
Proof.
  intros w w' Hv. destruct (same_view_reads w w' Hv) as [_ Hf].
  destruct Hv as (Ht & Htr & Hd).
  unfold call_updateModel, bind, emit_event, complete, throw. rewrite <- Hf.
  destruct (formDirective w); simpl; [|done].
  rewrite <- Ht, <- Htr. split; [done|]. repeat split; simpl; congruence.
Qed.

Lemma applyDisabledState_respects (c : FormControl) :
  view_respecting (applyDisabledState c).
Proof.
  unfold applyDisabledState. apply bind_respects; [apply get_this_respects|].
  intros d. destruct (disabled c); [|apply ret_respects].
  destruct (valueAccessor d) as [a|]; [|intros w w' Hv; done].
  destruct (setDisabledState a) as [f|]; [|apply ret_respects].
  apply bind_respects.
  - intros w w' (Ht & Htr & Hd). split; [done|]. repeat split; simpl; congruence.
  - intros _ w w' Hv. done.
Qed.

Lemma _setUpControl_respects : view_respecting _setUpControl.
Proof.
  unfold _setUpControl.
  apply bind_respects; [apply _checkParentType_respects|]. intros _.
  apply bind_respects; [apply call_addControl_respects|]. intros c.
  apply bind_respects; [apply modify_this_respects; done|]. intros _.
  apply bind_respects; [apply applyDisabledState_respects|]. intros _.
  apply modify_this_respects; done.
Qed.

Lemma updateModelIfChanged_respects (changes : gmap string SimpleChange) :
  view_respecting (updateModelIfChanged changes).
Proof.
  unfold updateModelIfChanged.
  apply bind_respects; [apply get_this_respects|]. intros d.
  destruct (isPropertyUpdated changes (viewModel d)); [|apply ret_respects].
  apply bind_respects; [apply modify_this_respects; done|]. intros _.
  apply bind_respects; [apply get_this_respects|]. intros d'.
  apply call_updateModel_respects.
Qed.

(** X11: the directive reads its surroundings through its parent alone.  In
    two worlds with the same instance, the same history and a parent that
    shows the same classes, the same path and the same form directive,
    [ngOnChanges] and [ngOnDestroy] end the same way, make the same calls and
    leave the same instance, and [path] reads the same. *)
Theorem only_the_parent_is_read (changes : gmap string SimpleChange) :
  view_respecting (ngOnChanges changes)
  /\ view_respecting ngOnDestroy
  /\ (forall w w', same_view w w' -> path w = path w').
Proof.
  split_and!.
  - unfold ngOnChanges.
    apply bind_respects; [apply get_this_respects|]. intros d.
    apply bind_respects; [|intros _; apply updateModelIfChanged_respects].
    destruct (negb (_added d)); [apply _setUpControl_respects|apply ret_respects].
  - intros w w' Hv. destruct (same_view_reads w w' Hv) as [_ Hf].
    destruct Hv as (Ht & Htr & Hd).
    unfold ngOnDestroy, call_removeControl, bind, emit_event, complete, ret.
    rewrite <- Hf. destruct (formDirective w); simpl; [|done].
    rewrite <- Ht, <- Htr. split; [done|]. repeat split; simpl; congruence.
  - intros w w' (Ht & _ & Hd). unfold path. rewrite Hd, Ht. reflexivity.
Qed.

End MoreProperties.

(** ** Properties of the helpers of [util.ts] *)

Section UtilProperties.

(** [===] against a function value holds for that function alone. *)
Lemma strict_equals_Function (v : Js.Value) (self : Js.Ref) :
  Js.strict_equals v (Js.Function self) = true <-> v = Js.Function self.
Proof.
  destruct v; simpl; try (split; [discriminate|congruence]).
  rewrite Nat.eqb_eq. split; congruence.
Qed.

(** IEEE equality of two numbers, read on their specifications: both are
    zeros (of any sign), or they are the same number and not NaN. *)
Lemma SFeqb_true (x y : SpecFloat.spec_float) :
  SpecFloat.SFeqb x y = true <->
  (exists s s', x = SpecFloat.S754_zero s /\ y = SpecFloat.S754_zero s')
  \/ (x = y /\ x <> SpecFloat.S754_nan).
Proof.
  unfold SpecFloat.SFeqb, SpecFloat.SFcompare. split.
  - destruct x as [[]|[]| |[] m e], y as [[]|[]| |[] m' e']; simpl;
      try discriminate; try (left; eauto; fail); try (right; done).
    all: destruct (Z.compare_spec e e'); try discriminate; subst;
      rewrite Pos.compare_cont_spec; simpl;
      destruct (Pos.compare_spec m m'); try discriminate; subst; right; done.
  - intros [(s & s' & -> & ->)|[<- Hn]]; [reflexivity|].
    destruct x as [s|s| |s m e]; try done.
    + destruct s; reflexivity.
    + destruct s; rewrite Z.compare_refl, Pos.compare_cont_refl; reflexivity.
Qed.

Lemma float_eqb_sym (x y : float) : PrimFloat.eqb x y = PrimFloat.eqb y x.
Proof.
  rewrite !FloatAxioms.eqb_spec.
  apply eq_true_iff_eq. rewrite !SFeqb_true.
  split; intros [(s & s' & -> & ->)|[-> Hn]]; eauto.
Qed.

Lemma float_eqb_trans (x y z : float) :
  PrimFloat.eqb x y = true -> PrimFloat.eqb y z = true -> PrimFloat.eqb x z = true.
Proof.
  rewrite !FloatAxioms.eqb_spec, !SFeqb_true.
  intros [(s & s' & -> & Hy)|[-> Hn]] [(t & t' & Hy' & ->)|[<- Hn']]; eauto.
Qed.

(** X12: [looseIdentical] is an equivalence relation on values: reflexive
    (which [===] is not, because of NaN), symmetric and transitive. *)
Theorem looseIdentical_equivalence :
  (forall a, looseIdentical a a = true)
  /\ (forall a b, looseIdentical a b = looseIdentical b a)
  /\ (forall a b c, looseIdentical a b = true -> looseIdentical b c = true ->
                    looseIdentical a c = true).
Proof.
  split_and!.
  - intros [| |b|x|s|r|r]; unfold looseIdentical; simpl; try done.
    + destruct b; done.
    + unfold Js.isNaN, PrimFloat.is_nan. destruct (PrimFloat.eqb x x); done.
    + rewrite String.eqb_refl. done.
    + rewrite Nat.eqb_refl. done.
    + rewrite Nat.eqb_refl. done.
  - intros a b. unfold looseIdentical.
    destruct a as [| |x|x|x|x|x], b as [| |y|y|y|y|y]; simpl; try done.
    + destruct x, y; done.
    + rewrite (float_eqb_sym x y), (andb_comm (Js.isNaN x)). done.
    + rewrite String.eqb_sym. done.
    + rewrite Nat.eqb_sym. done.
    + rewrite Nat.eqb_sym. done.
  - intros a b c. unfold looseIdentical.
    destruct a as [| |x|x|x|x|x], b as [| |y|y|y|y|y], c as [| |z|z|z|z|z];
      simpl; try done; rewrite ?orb_false_r.
    + destruct x, y, z; done.
    + unfold Js.isNaN, PrimFloat.is_nan.
      destruct (PrimFloat.eqb x y) eqn:Hxy, (PrimFloat.eqb y z) eqn:Hyz;
        simpl; intros H1 H2.
      * rewrite (float_eqb_trans x y z) by done. done.
      * apply andb_prop in H2 as [H2 _]. rewrite (float_eqb_trans y x y) in H2; try done.
        by rewrite float_eqb_sym.
      * apply andb_prop in H1 as [_ H1]. rewrite (float_eqb_trans y z y) in H1; try done.
        by rewrite float_eqb_sym.
      * apply andb_prop in H1 as [H1 _]. apply andb_prop in H2 as [_ H2].
        rewrite H1, H2. apply orb_true_r.
    + rewrite !String.eqb_eq. congruence.
    + rewrite !Nat.eqb_eq. congruence.
    + rewrite !Nat.eqb_eq. congruence.
Qed.

(** X13: on a falsy value ([null] and [undefined] included) [isPromise] and
    [isObservable] give [false] without reading any property, so they do not
    throw there; on a truthy value they read [then] (resp. [subscribe]) once
    and give whether it is a function, and they throw exactly what that read
    throws. *)
Theorem thenable_checks_are_guarded (props : Util.Props) (obj : Js.Value) :
  (Util.truthy obj = false ->
   Util.isPromise props obj = Normal false
   /\ Util.isObservable props obj = Normal false)
  /\ (Util.truthy obj = true ->
      Util.isPromise props obj
        = match props obj "then" with
          | Normal f => Normal (String.eqb (Js.typeof f) "function")
          | Throw e => Throw e
          end
      /\ Util.isObservable props obj
         = match props obj "subscribe" with
           | Normal f => Normal (String.eqb (Js.typeof f) "function")
           | Throw e => Throw e
           end).
Proof.
  unfold Util.isPromise, Util.isObservable, Util.getProperty.
  split; intros Ht; rewrite Ht; [done|].
  destruct obj; try discriminate; done.
Qed.

(** No entry of [l] holds the function [self]. *)
Lemma getClosureSafeProperty_skips (self : Js.Ref) (pre rest : list (string * Js.Value)) :
  Forall (fun kv => kv.2 <> Js.Function self) pre ->
  Util.getClosureSafeProperty self (pre ++ rest)
  = Util.getClosureSafeProperty self rest.
Proof.
  induction 1 as [|[k v] pre Hv _ IH]; [reflexivity|]. simpl in *.
  destruct (Js.strict_equals v (Js.Function self)) eqn:He; [|exact IH].
  apply strict_equals_Function in He. done.
Qed.



(** [indexOf('\n')], one character at a time. *)
Lemma index_newline_cons (a : Ascii.ascii) (s : string) :
  String.index 0 Util.newline (String a s) =
    if Ascii.eqb (Ascii.ascii_of_nat 10) a then Some 0
    else match String.index 0 Util.newline s with
         | Some n => Some (S n)
         | None => None
         end.
Proof.
  unfold Util.newline. cbn [String.index String.prefix].
  destruct (Ascii.ascii_dec (Ascii.ascii_of_nat 10) a) as [<-|Hne].
  - rewrite Ascii.eqb_refl. destruct s; reflexivity.
  - apply Ascii.eqb_neq in Hne. rewrite Hne. reflexivity.
Qed.

(** [firstLine res] is [res] up to its first line break, which it leaves out. *)
Lemma firstLine_cut (res : string) :
  String.index 0 Util.newline (Util.firstLine res) = None
  /\ exists rest,
       res = String.append (Util.firstLine res) rest
       /\ (rest = EmptyString \/ exists rest', rest = String.append Util.newline rest').
Proof.
  unfold Util.firstLine. induction res as [|a res [IH1 (rest & IH2 & IH3)]].
  - split; [reflexivity|]. exists EmptyString. split; [reflexivity|by left].
  - rewrite index_newline_cons.
    destruct (Ascii.eqb (Ascii.ascii_of_nat 10) a) eqn:Ha.
    + apply Ascii.eqb_eq in Ha as <-. simpl. split; [reflexivity|].
      exists (String (Ascii.ascii_of_nat 10) res). split; [reflexivity|].
      right. exists res. reflexivity.
    + destruct (String.index 0 Util.newline res) as [n|] eqn:Hi.
      * cbn [String.substring]. split.
        -- rewrite index_newline_cons, Ha, IH1. reflexivity.
        -- exists rest. split; [|exact IH3]. exact (f_equal (String a) IH2).
      * split.
        -- rewrite index_newline_cons, Ha, Hi. reflexivity.
        -- exists EmptyString. split; [|by left].
           clear. generalize (String a res). intros s.
           induction s as [|c s IHs]; [reflexivity|]. exact (f_equal (String c) IHs).
Qed.

(** X16: for an object with no usable [overriddenName] or [name],
    [stringify] returns the first line of [toString()]: the text up to, and
    without, its first line break, and so a result with no line break in it. *)
Theorem stringify_object_first_line (o : Util.TokenObject) (res : string) :
  Util.truthyText (Util.overriddenName o) = None ->
  Util.truthyText (Util.name o) = None ->
  Util.toString o = Util.Text res ->
  String.index 0 Util.newline (Util.stringify (Util.TObject o)) = None
  /\ exists rest,
       res = String.append (Util.stringify (Util.TObject o)) rest
       /\ (rest = EmptyString \/ exists rest', rest = String.append Util.newline rest').
Proof.
  intros H1 H2 H3. simpl. rewrite H1, H2, H3. apply firstLine_cut.
Qed.

(** X17: in [stringify], a non-empty [overriddenName] wins over everything
    else, then a non-empty [name] wins over [toString()]; either is returned
    whole, line breaks included; an empty one counts as absent. *)
Theorem stringify_name_precedence (o : Util.TokenObject) (n : string) :
  n <> EmptyString ->
  (Util.overriddenName o = Some n -> Util.stringify (Util.TObject o) = n)
  /\ (Util.overriddenName o = None \/ Util.overriddenName o = Some EmptyString ->
      Util.name o = Some n -> Util.stringify (Util.TObject o) = n).
Proof.
  intros Hn. simpl. split.
  - intros ->. destruct n; done.
  - intros [-> | ->] ->; destruct n; done.
Qed.


End UtilProperties.

(** ** The further properties on the example form *)

Section MoreRuns.

Local Existing Instance SharedModel.instance.
Local Existing Instance Example.listeners.

(** X1 under a [formGroupName] that has no form above it. *)
Lemma setup_needs_a_form_witness :
  parentKindErrorOf (Example.world (Some 4)) = None
  /\ formDirective (Example.world (Some 4)) = None
  /\ ngOnChanges ∅ (Example.world (Some 4)) = (Example.world (Some 4), Throw TypeError).
Proof.
  split; [reflexivity|]. split; [reflexivity|].
  apply (setup_needs_a_form (Example.world (Some 4)) ∅ eq_refl eq_refl); reflexivity.
Defined.

(** X2 on the form whose model lacks the control. *)
Lemma failed_registration_writes_nothing_witness :
  formDirective (Example.world (Some 3)) = Some Example.emptyForm
  /\ control (this (fst (_setUpControl (Example.world (Some 3))))) = None
  /\ _added (this (fst (_setUpControl (Example.world (Some 3))))) = false.
Proof.
  split; [reflexivity|].
  rewrite (failed_registration_writes_nothing
             (Example.world (Some 3)) Example.emptyForm
             (CollaboratorError "Cannot find control") eq_refl eq_refl eq_refl).
  split; reflexivity.
Defined.

(** X3: the example control is disabled and the directive has no accessor. *)
Lemma disabled_state_failure_after_registration_witness :
  valueAccessor (this (Example2.worldWith None)) = None
  /\ snd (_setUpControl (Example2.worldWith None)) = Throw TypeError
  /\ control (this (fst (_setUpControl (Example2.worldWith None)))) = Some Example.city
  /\ _added (this (fst (_setUpControl (Example2.worldWith None)))) = false.
Proof.
  split; [reflexivity|].
  pose proof (disabled_state_failure_after_registration
                (Example2.worldWith None) Example.form Example.city
                eq_refl eq_refl eq_refl eq_refl) as [H _].
  rewrite (H eq_refl). repeat split.
Defined.

(** X4: the accessor does not define [setDisabledState]. *)
Lemma disabled_state_skipped_without_method_witness :
  setDisabledState Example2.plainAccessor = None
  /\ snd (_setUpControl (Example2.worldWith (Some Example2.plainAccessor))) = Normal tt
  /\ trace (fst (_setUpControl (Example2.worldWith (Some Example2.plainAccessor))))
     = [AddControl (this (Example2.worldWith (Some Example2.plainAccessor)))].
Proof.
  split; [reflexivity|].
  rewrite (disabled_state_skipped_without_method
             (Example2.worldWith (Some Example2.plainAccessor))
             Example.form Example.city Example2.plainAccessor
             eq_refl eq_refl eq_refl eq_refl eq_refl eq_refl).
  split; reflexivity.
Defined.

(** X5: the host bound [model] before the first pass. *)
Lemma first_pass_registers_then_updates_witness :
  _added (this Example2.bound) = false
  /\ isPropertyUpdated Example2.modelChanged (viewModel (this Example2.bound)) = true
  /\ snd (ngOnChanges Example2.modelChanged Example2.bound) = Normal tt
  /\ List.map is_setup_call
       (trace (fst (ngOnChanges Example2.modelChanged Example2.bound)))
     = [true; true; false]
  /\ viewModel (this (fst (ngOnChanges Example2.modelChanged Example2.bound)))
     = Js.String "Lyon".
Proof.
  split; [reflexivity|]. split; [reflexivity|].
  pose proof (first_pass_registers_then_updates
                Example2.bound (fst (_setUpControl Example2.bound)) Example.form
                Example2.modelChanged eq_refl eq_refl eq_refl eq_refl) as [H _].
  rewrite H. repeat split.
Defined.

(** X6: the registered directive's parent has lost its form. *)
Lemma model_update_without_form_witness :
  _added (this Example2.detached) = true
  /\ formDirective Example2.detached = None
  /\ viewModel (this Example2.detached) = Js.Undefined
  /\ snd (ngOnChanges Example2.modelChanged Example2.detached) = Throw TypeError
  /\ viewModel (this (fst (ngOnChanges Example2.modelChanged Example2.detached)))
     = Js.String "Lyon".
Proof.
  split; [reflexivity|]. split; [reflexivity|]. split; [reflexivity|].
  rewrite (model_update_without_form Example2.detached Example2.modelChanged);
    [split; reflexivity|reflexivity..].
Defined.

(** X7: destroying the registered directive twice. *)
Lemma ngOnDestroy_is_not_idempotent_witness :
  formDirective Example.registered = Some Example.form
  /\ count is_RemoveControl
       (trace (fst (ngOnDestroy (fst (ngOnDestroy Example.registered))))) = 2.
Proof.
  split; [reflexivity|].
  destruct (ngOnDestroy_is_not_idempotent Example.registered Example.form eq_refl)
    as [_ H].
  rewrite H. reflexivity.
Defined.

(** X10: the control found at registration is still there after a rename, a
    model write and two more passes. *)
Lemma control_is_fixed_by_registration_witness :
  snd (_setUpControl (Example.world (Some 0))) = Normal tt
  /\ control (this (run [WriteName (Js.String "town"); OnChanges Example.renamed;
                         WriteModel (Js.String "Lyon");
                         OnChanges Example2.modelChanged]
                        (fst (_setUpControl (Example.world (Some 0))))))
     = Some Example.city.
Proof.
  split; [reflexivity|].
  destruct (control_is_fixed_by_registration
              (Example.world (Some 0)) (fst (_setUpControl (Example.world (Some 0))))
              [WriteName (Js.String "town"); OnChanges Example.renamed;
               WriteModel (Js.String "Lyon"); OnChanges Example2.modelChanged]
              eq_refl) as (fd & c & Hfd & Hc & _ & H).
  rewrite H. f_equal. injection Hfd as <-. injection Hc as <-. reflexivity.
Defined.

(** X11: the registered directive next to a form that stands apart from its
    own (container [3]), before and after that form is replaced: its parent
    shows the same in both worlds, and the next pass is the same. *)
Lemma only_the_parent_is_read_witness :
  same_view Example.registered
            (perform (WriteContainer 3 Example.ngForm) Example.registered)
  /\ snd (ngOnChanges Example2.modelChanged Example.registered)
     = snd (ngOnChanges Example2.modelChanged
              (perform (WriteContainer 3 Example.ngForm) Example.registered))
  /\ trace (fst (ngOnChanges Example2.modelChanged Example.registered))
     = trace (fst (ngOnChanges Example2.modelChanged
                     (perform (WriteContainer 3 Example.ngForm) Example.registered))).
Proof.
  assert (Hv : same_view Example.registered
                 (perform (WriteContainer 3 Example.ngForm) Example.registered))
    by (repeat split).
  destruct (only_the_parent_is_read Example2.modelChanged) as (H & _ & _).
  destruct (H _ _ Hv) as (Hsnd & _ & Htrace & _).
  split; [exact Hv|]. split; [exact Hsnd|exact Htrace].
Defined.

(** X12 on NaN and on the two zeros. *)
Lemma looseIdentical_equivalence_witness :
  looseIdentical Js.NaN Js.NaN = true
  /\ looseIdentical (Js.Number 0%float) (Js.Number (-0)%float) = true
  /\ looseIdentical (Js.Number (-0)%float) (Js.Number 0%float) = true
  /\ looseIdentical (Js.Number 0%float) (Js.Number 0%float) = true.
Proof.
  destruct looseIdentical_equivalence as (Hr & Hs & Ht).
  split; [apply Hr|]. split; [reflexivity|]. split; [rewrite Hs; reflexivity|].
  apply (Ht _ (Js.Number (-0)%float)); reflexivity.
Defined.

(** X13 on [null], on a thenable, on a subscribable, and on an object whose
    [then] getter throws. *)
Lemma thenable_checks_are_guarded_witness :
  Util.truthy Js.Null = false
  /\ Util.isPromise Example2.props Js.Null = Normal false
  /\ Util.isObservable Example2.props Js.Null = Normal false
  /\ Util.truthy (Js.Object 7) = true
  /\ Util.isPromise Example2.props (Js.Object 7) = Normal true
  /\ Util.isObservable Example2.props (Js.Object 8) = Normal true
  /\ Util.isPromise Example2.props (Js.Object 9)
     = Throw (CollaboratorError "getter failed").
Proof.
  destruct (thenable_checks_are_guarded Example2.props Js.Null) as (Hnull & _).
  destruct (thenable_checks_are_guarded Example2.props (Js.Object 7)) as (_ & H7).
  destruct (thenable_checks_are_guarded Example2.props (Js.Object 8)) as (_ & H8).
  destruct (thenable_checks_are_guarded Example2.props (Js.Object 9)) as (_ & H9).
  split; [reflexivity|]. split; [exact (proj1 (Hnull eq_refl))|].
  split; [exact (proj2 (Hnull eq_refl))|]. split; [reflexivity|].
  split; [exact (proj1 (H7 eq_refl))|]. split; [exact (proj2 (H8 eq_refl))|].
  exact (proj1 (H9 eq_refl)).
Defined.



(** X16 on an object whose [toString] spans two lines. *)
Lemma stringify_object_first_line_witness :
  Util.stringify Example2.twoLines = "function () {"
  /\ String.index 0 Util.newline (Util.stringify Example2.twoLines) = None.
Proof.
  split; [reflexivity|].
  apply (stringify_object_first_line _ ("function () {" ++ Util.newline ++ "}")%string);
    reflexivity.
Defined.

(** X17 on a class. *)
Lemma stringify_name_precedence_witness :
  "FormControlName" <> EmptyString
  /\ Util.stringify Example2.classToken = "FormControlName".
Proof.
  split; [discriminate|].
  apply (stringify_name_precedence _ "FormControlName"); [discriminate|by left|reflexivity].
Defined.

End MoreRuns.
